(** * oneseismic: the fetch-and-cache layer of the API

    A shallow embedding of [api/internal/storage] (the blob cache and the
    Azure storage client) and of the two helpers of [api/internal/util]
    that the storage client relies on ([UnpackAzStorageError] and
    [FetchManifest]).  It also covers the client of [storage.go], which has
    no cache, the parsing of the parameters of a GET request
    ([GraphQLQueryFromGet]) and the fetching of the signing keys of the
    authorization server ([api/auth/openidConf.go]).

    Go values are embedded as follows:
    - [string] is a Rocq [string]; [[]byte] is a [byteSlice], an optional
      list of bytes where [None] is the nil slice;
    - a pointer that may be nil ([*string], [*url.URL]) is an [option];
    - the [error] interface is [option goError], [None] being nil;
    - [interface{}] is the small tagged union [any];
    - effects (cache lookups, downloads, log lines, [go] statements) are
      recorded in a trace, and a run ends either normally or in a panic. *)

From Stdlib Require Import String Ascii List ZArith Bool Lia.
From Stdlib Require Import Strings.Byte.
From stdpp Require Import base gmap strings.

Import ListNotations.
Local Open Scope string_scope.
Local Open Scope Z_scope.

(** ** Go data *)

(** [[]byte]: [None] is the nil slice, [Some []] is [[]byte{}] *)
Definition byteSlice : Type := option (list byte).

(** [net/http] status codes used by the storage client *)
Module http.
Definition StatusNotModified  : Z := 304.
Definition StatusUnauthorized : Z := 401.
Definition StatusForbidden    : Z := 403.
Definition StatusNotFound     : Z := 404.
End http.

(** [net/url.URL], restricted to the fields the storage layer reads *)
Module url.
Record URL : Type := mkURL {
  Scheme   : string;
  Host     : string;
  Path     : string;
  RawQuery : string
}.
End url.

(** ** Errors *)

(** Modelled from the spec: the package [api/internal], which declares the
    domain errors ([InternalError], [NewInternalError], [NotFound],
    [PermissionDeniedFromStatus]), is not part of the sources at hand.  The
    taxonomy of the specification has three kinds; an error carries its kind
    and a message.  The specification fixes no text for [NewInternalError]
    and [PermissionDeniedFromStatus]; their message is left empty. *)
Module internal.
Inductive kind : Type :=
| KInternalError
| KNotFound
| KPermissionDenied.

Record domainError : Type := mkDomainError {
  errKind : kind;
  errMsg  : string
}.

Definition InternalError (msg : string) : domainError :=
  mkDomainError KInternalError msg.

Definition NewInternalError : domainError :=
  mkDomainError KInternalError "".

Definition NotFound (msg : string) : domainError :=
  mkDomainError KNotFound msg.

Definition PermissionDeniedFromStatus (status : Z) : domainError :=
  mkDomainError KPermissionDenied "".
End internal.

(** The storage error of [azblob]: what [Response().StatusCode] answers and
    a description standing for the text of [Error()] *)
Module azblob.
Record StorageError : Type := mkStorageError {
  StatusCode  : Z;
  description : string
}.
End azblob.

(** The dynamic types an [error] can have in this layer.  Go distinguishes
    the value type [azblob.StorageError] from the pointer type
    [*azblob.StorageError]: a type switch on the former does not match the
    latter, and [errors.As] with a [*azblob.StorageError] target matches only
    the latter. *)
Inductive goError : Type :=
| AzStorageError    (e : azblob.StorageError)   (* azblob.StorageError *)
| AzStorageErrorPtr (e : azblob.StorageError)   (* *azblob.StorageError *)
| AzInternalError   (cause : goError)           (* *azblob.InternalError *)
| WrapError         (msg : string) (cause : goError) (* any error with Unwrap *)
| DomainError       (e : internal.domainError)  (* errors of api/internal *)
| OpaqueError       (typ msg : string).         (* anything else *)

Definition error : Type := option goError.

(** [err.Error()] *)
Fixpoint Error (err : goError) : string :=
  match err with
  | AzStorageError e    => azblob.description e
  | AzStorageErrorPtr e => azblob.description e
  | AzInternalError c   => Error c
  | WrapError msg _     => msg
  | DomainError e       => internal.errMsg e
  | OpaqueError _ msg   => msg
  end.

(** The [%T] verb of [fmt].  The type behind the domain errors is declared
    outside the sources at hand; its name here only shows in a log line. *)
Definition typeName (err : goError) : string :=
  match err with
  | AzStorageError _    => "azblob.StorageError"
  | AzStorageErrorPtr _ => "*azblob.StorageError"
  | AzInternalError _   => "*azblob.InternalError"
  | WrapError _ _       => "*fmt.wrapError"
  | DomainError _       => "*internal.errorString"
  | OpaqueError typ _   => typ
  end.

Module errors.
(** [errors.As(err, &stgErr)] with [stgErr : *azblob.StorageError]: walk
    the chain of wrapped errors and stop at the first one whose dynamic
    type is the target's.  [*azblob.InternalError] answers through its own
    [As] method, which asks its cause. *)
Fixpoint As (err : goError) : option azblob.StorageError :=
  match err with
  | AzStorageErrorPtr e   => Some e
  | AzInternalError cause => As cause
  | WrapError _ cause     => As cause
  | AzStorageError _      => None
  | DomainError _         => None
  | OpaqueError _ _       => None
  end.
End errors.

Module util.
(** [UnpackAzStorageError]: undo the wrapping of [azblob] *)
Definition UnpackAzStorageError (err : error) : error :=
  match err with
  | None => None
  | Some e =>
      match errors.As e with
      | Some stgErr => Some (AzStorageError stgErr)
      | None        => err
      end
  end.
End util.

(** An error wraps a storage error when a [*azblob.StorageError] sits at the
    end of a chain of envelopes. *)
Inductive wraps_storage_error : goError -> azblob.StorageError -> Prop :=
| wraps_here e :
    wraps_storage_error (AzStorageErrorPtr e) e
| wraps_internal cause e :
    wraps_storage_error cause e ->
    wraps_storage_error (AzInternalError cause) e
| wraps_unwrap msg cause e :
    wraps_storage_error cause e ->
    wraps_storage_error (WrapError msg cause) e.

(** ** The cache of fragments ([cache.go]) *)

Record cacheEntry : Type := mkCacheEntry {
  chunk : byteSlice;
  etag  : option string
}.

(** [cacheEntry{}] *)
Definition zeroEntry : cacheEntry := mkCacheEntry None None.

(** [interface{}], as far as the cache is concerned *)
Inductive any : Type :=
| AnyNil
| AnyCacheEntry (e : cacheEntry)
| AnyOther (typ : string).

(** A Go function either returns or panics *)
Inductive run (A : Type) : Type :=
| Done (a : A)
| Panicked (why : string).
Arguments Done {A} a.
Arguments Panicked {A} why.

Class blobCache (C : Type) : Type := {
  set : C -> string -> cacheEntry -> C;
  get : C -> string -> run (cacheEntry * bool)
}.

(** [ristretto.Cache] is a third-party library: its state and its two
    methods are parameters.  [Cache_Set] answers the new state and whether
    the item was accepted; [Cache_Get] answers [(nil, false)] on a miss. *)
Section Ristretto.
Variable Cache : Type.
Variable Cache_Set : Cache -> string -> any -> Z -> Cache * bool.
Variable Cache_Get : Cache -> string -> any * bool.

Definition ristrettoCache_set (c : Cache) (key : string) (val : cacheEntry)
  : Cache :=
  fst (Cache_Set c key (AnyCacheEntry val) 0).

Definition ristrettoCache_get (c : Cache) (key : string)
  : run (cacheEntry * bool) :=
  let '(v, hit) := Cache_Get c key in
  if hit then
    match v with
    | AnyCacheEntry e => Done (e, true)
    | AnyNil => Panicked "interface conversion: interface is nil, not storage.cacheEntry"
    | AnyOther typ => Panicked ("interface conversion: interface {} is " +:+ typ +:+ ", not storage.cacheEntry")
    end
  else Done (zeroEntry, false).

Definition ristrettoCache : blobCache Cache :=
  {| set := ristrettoCache_set; get := ristrettoCache_get |}.
End Ristretto.

(** The cache that never keeps anything *)
Definition noCache : Type := unit.

Definition noCache_set (c : noCache) (key : string) (val : cacheEntry)
  : noCache := c.

Definition noCache_get (c : noCache) (key : string)
  : run (cacheEntry * bool) := Done (zeroEntry, false).

#[export] Instance noCache_blobCache : blobCache noCache :=
  {| set := noCache_set; get := noCache_get |}.

(** A cache that keeps every entry it is given, for running scenarios: the
    behaviour of [ristretto.Cache] while nothing is dropped or evicted *)
Definition keepAll_Set (c : gmap string any) (key : string) (v : any) (cost : Z)
  : gmap string any * bool := (<[key := v]> c, true).

Definition keepAll_Get (c : gmap string any) (key : string) : any * bool :=
  match c !! key with
  | Some v => (v, true)
  | None   => (AnyNil, false)
  end.

Definition keepAllCache : blobCache (gmap string any) :=
  ristrettoCache (gmap string any) keepAll_Set keepAll_Get.







(** ** Effects *)

(** What a [go] statement starts *)
Inductive task : Type :=
| CacheSet (key : string) (val : cacheEntry).

Inductive event : Type :=
| EvCacheGet (key : string)
| EvDownload (bloburl : string) (ifNoneMatch : option string)
| EvLog (line : string)
| EvGo (t : task).

(** A computation: the events it performed, in order, and how it ended *)
Record M (A : Type) : Type := mkM {
  trace   : list event;
  outcome : run A
}.
Arguments mkM {A} trace outcome.
Arguments trace {A} m.
Arguments outcome {A} m.

#[export] Instance M_ret : MRet M := fun A a => mkM [] (Done a).

#[export] Instance M_bind : MBind M := fun A B f m =>
  match outcome m with
  | Done a =>
      let r := f a in mkM (trace m ++ trace r) (outcome r)
  | Panicked why => mkM (trace m) (Panicked why)
  end.

Definition emit (e : event) : M unit := mkM [e] (Done tt).

Definition panic {A : Type} (why : string) : M A := mkM [] (Panicked why).

Definition lift {A : Type} (r : run A) : M A := mkM [] r.

(** [*p] *)
Definition deref {A : Type} (p : option A) : M A :=
  match p with
  | Some a => mret a
  | None   => panic "invalid memory address or nil pointer dereference"
  end.

(** Running a started task against the cache *)
Definition run_task {C : Type} `{blobCache C} (t : task) (c : C) : C :=
  match t with
  | CacheSet key val => set c key val
  end.

(** The tasks a trace started, in order *)
Fixpoint started (tr : list event) : list task :=
  match tr with
  | [] => []
  | EvGo t :: tr' => t :: started tr'
  | _ :: tr' => started tr'
  end.

(** The downloads a trace issued, in order *)
Fixpoint downloads (tr : list event) : list (string * option string) :=
  match tr with
  | [] => []
  | EvDownload u t :: tr' => (u, t) :: downloads tr'
  | _ :: tr' => downloads tr'
  end.

(** The cache lookups of a trace *)
Fixpoint lookups (tr : list event) : list string :=
  match tr with
  | [] => []
  | EvCacheGet k :: tr' => k :: lookups tr'
  | _ :: tr' => lookups tr'
  end.

(** ** Locators *)

(** [strings.Cut(s, sep)] for a one-character separator *)
Fixpoint cut (sep : ascii) (s : string) : string * option string :=
  match s with
  | EmptyString => (EmptyString, None)
  | String a s' =>
      if Ascii.eqb a sep then (EmptyString, Some s')
      else let '(before, after) := cut sep s' in (String a before, after)
  end.

Fixpoint contains_any (seps : list ascii) (s : string) : bool :=
  match s with
  | EmptyString => false
  | String a s' =>
      existsb (Ascii.eqb a) seps || contains_any seps s'
  end.

Fixpoint all_chars (ok : nat -> bool) (s : string) : bool :=
  match s with
  | EmptyString => true
  | String a s' => ok (nat_of_ascii a) && all_chars ok s'
  end.

Definition is_lower (n : nat) : bool := Nat.leb 97 n && Nat.leb n 122.
Definition is_digit (n : nat) : bool := Nat.leb 48 n && Nat.leb n 57.
Definition is_host_char (n : nat) : bool :=
  is_lower n || is_digit n || Nat.eqb n 45 || Nat.eqb n 46.
Definition is_printable (n : nat) : bool := Nat.leb 33 n && Nat.leb n 126.

(** [url.Parse] of the Go standard library, for locators of the shape
    [scheme://host/path?query]: a lower-case scheme, a host of lower-case
    letters, digits, dots and dashes, printable characters only, and no
    fragment, escape, user information, port or bracket.  Anything else is
    out of this model and answers [None].  The scheme ends at the first
    colon, the query starts after the first question mark, the authority
    runs from the two slashes to the next slash, and the path is what
    remains, its leading slash included. *)
Definition url_Parse (rawurl : string) : option url.URL :=
  if contains_any ["#"; "%"; "@"; "["; "]"]%char rawurl
     || negb (all_chars is_printable rawurl)
  then None else
  match cut ":" rawurl with
  | (_, None) => None
  | (scheme, Some rest) =>
      if negb (all_chars is_lower scheme) || Nat.eqb (String.length scheme) 0
      then None
      else
        let '(rest, query) := cut "?" rest in
        match rest with
        | String "/" (String "/" authority) =>
            let '(host, path) := cut "/" authority in
            if negb (all_chars is_host_char host) then None else
            Some (url.mkURL scheme host
                    (match path with
                     | Some p => String "/" p
                     | None => EmptyString
                     end)
                    (match query with Some q => q | None => EmptyString end))
        | _ => None
        end
  end.

(** The [String] method of [url.URL] for the same shape of locators: a slash is put
    between host and path when the path does not start with one. *)
Definition url_String (u : url.URL) : string :=
  url.Scheme u +:+ "://" +:+ url.Host u
  +:+ (match url.Path u with
       | EmptyString => EmptyString
       | String "/" _ => url.Path u
       | p => String "/" p
       end)
  +:+ (match url.RawQuery u with
       | EmptyString => EmptyString
       | q => String "?" q
       end).

(** Creates a cache key from the host + path: [fmt.Sprintf("%s/%s", ...)] *)
Definition newCacheKey (bloburl : url.URL) : string :=
  url.Host bloburl +:+ "/" +:+ url.Path bloburl.

(** ** The blob store, as the client sees it through [azblob] *)

(** A successful download: the [ETag] header (a [*string]) and what
    [ioutil.ReadAll] gets out of the body *)
Record DownloadResponse : Type := mkDownloadResponse {
  ETag    : option string;
  Body    : list byte;
  BodyErr : error
}.

Record BlobStore : Type := mkBlobStore {
  (* the error of constructing a client for a URL, nil when it is fine *)
  NewBlobClientWithNoCredential      : string -> error;
  NewContainerClientWithNoCredential : string -> error;
  (* the URL of a blob inside a container *)
  NewBlobClient : string -> string -> string;
  (* the download of a URL under an If-None-Match condition *)
  Download : string -> option string -> goError + DownloadResponse
}.

(** [ioutil.ReadAll(body)]: the bytes read and the error that stopped the
    reading, if any; the slice is never nil *)
Definition ReadAll (dl : DownloadResponse) : byteSlice * error :=
  (Some (Body dl), BodyErr dl).

(** ** The storage client ([AzStorage]) and [FetchManifest] *)

Section Storage.
(* the String method of url.URL, a function of the Go standard library *)
Variable URL_String : url.URL -> string.
Context {C : Type} `{blobCache C}.
Variable az : BlobStore.

Definition log_Printf (line : string) : M unit := emit (EvLog line).

(** [go f()] *)
Definition go (t : task) : M unit := emit (EvGo t).

(** [c.cache.get(key)] *)
Definition cache_get (c : C) (key : string) : M (cacheEntry * bool) :=
  emit (EvCacheGet key);; lift (get c key).

(** [client.Download(ctx, options)].  The [Download] of [azblob] takes the
    [ETag] of every response it hands out; a response without one is not an
    answer it returns.  Statements about what [Get] does with a body are
    therefore read for responses that carry an [ETag]. *)
Definition client_Download (bloburl : string) (ifNoneMatch : option string)
  : M (goError + DownloadResponse) :=
  emit (EvDownload bloburl ifNoneMatch);;
  mret (Download az bloburl ifNoneMatch).

Definition download (bloburl : url.URL) (etag : option string)
  : M (cacheEntry * error) :=
  match NewBlobClientWithNoCredential az (URL_String bloburl) with
  | Some err =>
      mret (zeroEntry, Some (DomainError (internal.InternalError (Error err))))
  | None =>
      r ← client_Download (URL_String bloburl) etag;
      match r with
      | inl err => mret (zeroEntry, util.UnpackAzStorageError (Some err))
      | inr dl =>
          let '(chunk, err) := ReadAll dl in
          mret (mkCacheEntry chunk (ETag dl), err)
      end
  end.

Definition Get (c : C) (bloburl : option url.URL) : M (byteSlice * error) :=
  match bloburl with
  | None =>
      mret (Some [], Some (DomainError (internal.InternalError "blob URL is nil")))
  | Some u =>
      let key := newCacheKey u in
      '(cached, hit) ← cache_get c key;
      '(cold, err) ← download u (etag cached);
      match err with
      | None =>
          (* nil means the azblob.Download succeeded *and* was not etag match *)
          if hit : bool then
            tag ← deref (etag cached);
            log_Printf ("ETag (= " +:+ tag +:+ ") expired for "
                        +:+ URL_String u +:+ "; investigate immediately");;
            mret (None, Some (DomainError internal.NewInternalError))
          else
            (* not in cache, so clean fetch was expected *)
            go (CacheSet key cold);;
            mret (chunk cold, None)
      | Some (AzStorageError e) =>
          let status := azblob.StatusCode e in
          if status =? http.StatusNotModified then
            mret (chunk cached, None)
          else if status =? http.StatusNotFound then
            let msg := "Not found: " +:+ url.Host u +:+ "/" +:+ url.Path u in
            mret (None, Some (DomainError (internal.NotFound msg)))
          else if status =? http.StatusForbidden then
            mret (None, Some (DomainError (internal.PermissionDeniedFromStatus status)))
          else if status =? http.StatusUnauthorized then
            mret (None, Some (DomainError (internal.PermissionDeniedFromStatus status)))
          else
            log_Printf ("Unhandled azblob.StorageError: "
                        +:+ Error (AzStorageError e));;
            mret (None, Some (DomainError
                                (internal.InternalError (Error (AzStorageError e)))))
      | Some e =>
          log_Printf ("Unhandled error type " +:+ typeName e
                      +:+ " (= " +:+ Error e +:+ ")");;
          mret (None, Some (DomainError (internal.InternalError (Error e))))
      end
  end.

(** Get the manifest for the cube from the blob store: a blocking read *)
Definition FetchManifest (containerURL : option url.URL)
  : M (byteSlice * error) :=
  u ← deref containerURL;
  match NewContainerClientWithNoCredential az (URL_String u) with
  | Some err => mret (None, Some err)
  | None =>
      let blob := NewBlobClient az (URL_String u) "manifest.json" in
      r ← client_Download blob None;
      match r with
      | inl err => mret (None, util.UnpackAzStorageError (Some err))
      | inr dl => mret (ReadAll dl)
      end
  end.

(** Modelled from the spec: the code that serves a request (it reads the
    manifest of a cube and then the fragments of that cube) is not part of
    the sources at hand.  Section 4.4 of the specification fixes its
    discipline: the manifest is fetched first, with a blocking call, and any
    error of that fetch aborts the request before a fragment is fetched. *)
Fixpoint fetchFragments (c : C) (fragments : list url.URL)
  : M (list byteSlice * error) :=
  match fragments with
  | [] => mret ([], None)
  | u :: rest =>
      '(bytes, err) ← Get c (Some u);
      match err with
      | Some e => mret ([], Some e)
      | None =>
          '(more, err') ← fetchFragments c rest;
          mret (bytes :: more, err')
      end
  end.

(** Modelled from the spec: see [fetchFragments]. *)
Definition serveRequest (c : C) (containerURL : option url.URL)
    (fragments : list url.URL) : M (list byteSlice * error) :=
  '(manifest, err) ← FetchManifest containerURL;
  match err with
  | Some e => mret ([], Some e)
  | None   => fetchFragments c fragments
  end.

End Storage.

(** ** Vocabulary of the statements *)

(** The origin reported [status]: the error of the download is a storage
    error with that status, bare or inside the envelopes of [azblob] *)
Definition reports_status (err : goError) (status : Z) : Prop :=
  exists e : azblob.StorageError,
    (err = AzStorageError e \/ wraps_storage_error err e)
    /\ azblob.StatusCode e = status.

(** [needle] occurs in [hay] *)
Definition includes (hay needle : string) : Prop :=
  exists pre post : string, hay = pre +:+ needle +:+ post.

(** The translation of download errors with only three statuses set apart
    (404, 403 and 401) and every other one sent to [InternalError] *)
Definition three_status_translation (err : goError) : internal.kind :=
  match err with
  | AzStorageError e =>
      let status := azblob.StatusCode e in
      if status =? http.StatusNotFound then internal.KNotFound
      else if (status =? http.StatusForbidden)
              || (status =? http.StatusUnauthorized)
      then internal.KPermissionDenied
      else internal.KInternalError
  | _ => internal.KInternalError
  end.

(** ** Stores and locators for running scenarios *)

Definition locator1 : url.URL := url.mkURL "http" "h" "/p" "a=1".
Definition locator2 : url.URL := url.mkURL "http" "h" "/p" "a=2".

Definition payloadB : list byte := [x01; x02; x03].
Definition payloadC : list byte := [x0a; x0b].

(** An origin that answers every download with the same bytes and [ETag],
    whatever the condition of the request *)
Definition freshStore (tag : option string) (body : list byte) : BlobStore :=
  {| NewBlobClientWithNoCredential := fun _ => None;
     NewContainerClientWithNoCredential := fun _ => None;
     NewBlobClient := fun container name => container +:+ "/" +:+ name;
     Download := fun _ _ => inr (mkDownloadResponse tag body None) |}.

(** An origin that fails every download with [status], the way [azblob]
    hands such failures out: a pointer to a storage error in an envelope *)
Definition statusStore (status : Z) : BlobStore :=
  {| NewBlobClientWithNoCredential := fun _ => None;
     NewContainerClientWithNoCredential := fun _ => None;
     NewBlobClient := fun container name => container +:+ "/" +:+ name;
     Download := fun _ _ =>
       inl (AzInternalError
              (AzStorageErrorPtr (azblob.mkStorageError status "status"))) |}.

(** An origin that honours [If-None-Match] *)
Definition etagStore (tag : string) (body : list byte) : BlobStore :=
  {| NewBlobClientWithNoCredential := fun _ => None;
     NewContainerClientWithNoCredential := fun _ => None;
     NewBlobClient := fun container name => container +:+ "/" +:+ name;
     Download := fun _ cond =>
       match cond with
       | Some t =>
           if String.eqb t tag then
             inl (AzInternalError
                    (AzStorageErrorPtr
                       (azblob.mkStorageError http.StatusNotModified
                                              "The condition was not met")))
           else inr (mkDownloadResponse (Some tag) body None)
       | None => inr (mkDownloadResponse (Some tag) body None)
       end |}.

(** [Get] against the cache that keeps everything *)
Definition keepAll_Get_blob (az : BlobStore) (c : gmap string any)
    (u : option url.URL) : M (byteSlice * error) :=
  @Get url_String (gmap string any) keepAllCache az c u.

(** The cache after the tasks that a run started have all finished *)
Definition settle (c : gmap string any) (tr : list event) : gmap string any :=
  fold_left (fun c t => @run_task _ keepAllCache t c) (started tr) c.

(** The cache that holds one entry, under the key of [locator1] *)
Definition cacheWith (entry : cacheEntry) : gmap string any :=
  {[ newCacheKey locator1 := AnyCacheEntry entry ]}.

Definition entryC : cacheEntry := mkCacheEntry (Some payloadC) (Some "v1").

(** The envelope in which [statusStore] hands out its failures *)
Definition statusError (status : Z) : goError :=
  AzInternalError (AzStorageErrorPtr (azblob.mkStorageError status "status")).

(** A container of the store *)
Definition container1 : url.URL := url.mkURL "http" "h" "/cube" "".

(** The cache after the tasks of a run have finished, in the order in which
    they were started *)
Definition after_tasks {C : Type} `{blobCache C} (c : C) (tr : list event)
  : C :=
  fold_left (fun c t => run_task t c) (started tr) c.

(** ** The client of [storage.go], which has no cache *)

Module uncached.
Section Client.
Variable URL_String : url.URL -> string.
Variable az : BlobStore.

(** [AzStorage.Get] of [storage.go]: no lookup, no condition on the
    download, and the error of the download goes to the caller as it is *)
Definition Get (bloburl : option url.URL) : M (byteSlice * error) :=
  match bloburl with
  | None =>
      mret (Some [], Some (DomainError (internal.InternalError "blob URL is nil")))
  | Some u =>
      match NewBlobClientWithNoCredential az (URL_String u) with
      | Some err =>
          mret (Some [], Some (DomainError (internal.InternalError (Error err))))
      | None =>
          r ← client_Download az (URL_String u) None;
          match r with
          | inl err => mret (Some [], Some err)
          | inr dl => mret (ReadAll dl)
          end
      end
  end.
End Client.
End uncached.

(** ** Query parameters of a GET request ([GraphQLQueryFromGet]) *)

Section GraphQL.
(* the variables of a query once decoded: map[string]interface{} *)
Variable Variables : Type.
(* make(map[string]interface{}) *)
Variable noVariables : Variables.
(* json.Unmarshal of a text into the empty map: an error or the map *)
Variable json_Unmarshal : string -> goError + Variables.
(* internal.QueryError, of the package api/internal *)
Variable QueryError : string -> goError.

Record GraphQLQuery : Type := mkGraphQLQuery {
  Query          : string;
  OperationName  : string;
  QueryVariables : Variables
}.

(** [query[key]] on a [url.Values]: a missing key answers the nil slice *)
Definition values (query : gmap string (list string)) (key : string)
  : list string :=
  default [] (query !! key).

Definition GraphQLQueryFromGet (query : gmap string (list string))
  : option GraphQLQuery * error :=
  let graphqueryargs := values query "query" in
  if negb (Nat.eqb (length graphqueryargs) 1) then
    (None, Some (QueryError "Bad Request"))
  else
    let graphquery := hd "" graphqueryargs in
    let opnameargs := values query "operationName" in
    if Nat.ltb 1 (length opnameargs) then
      (None, Some (QueryError "Bad Request"))
    else
      let opname :=
        if Nat.eqb (length opnameargs) 1 then hd "" opnameargs else "" in
      let variablesargs := values query "variables" in
      if Nat.ltb 1 (length variablesargs) then
        (None, Some (QueryError "Bad Request"))
      else
        let decoded :=
          if Nat.eqb (length variablesargs) 1
          then json_Unmarshal (hd "" variablesargs)
          else inr noVariables in
        match decoded with
        | inl _ => (None, Some (QueryError "Bad Request"))
        | inr variables =>
            (Some (mkGraphQLQuery graphquery opname variables), None)
        end.
End GraphQL.

(** ** The signing keys of the authorization server ([openidConf.go]) *)

Module rsa.
Record PublicKey : Type := mkPublicKey {
  N : Z;
  E : Z
}.
End rsa.

Module auth.

(** [OpenIDConfig], restricted to the field that is read *)
Record OpenIDConfig : Type := mkOpenIDConfig {
  JwksURI : string
}.

Record JWK : Type := mkJWK {
  Kty : string;
  Use : string;
  Kid : string;
  X5T : string;
  N   : string;
  E   : string;
  X5C : list string
}.

Record JWKS : Type := mkJWKS {
  Keys : list JWK
}.

(** What [configClient.Get] answers when the request went through *)
Record Response : Type := mkResponse {
  StatusCode : Z;
  Status     : string;
  Body       : string
}.

(** [SetBytes] of [big.Int]: the bytes as a big-endian unsigned number *)
Definition SetBytes (b : list byte) : Z :=
  fold_left (fun acc x => acc * 256 + Z.of_N (Byte.to_N x)) b 0.

Section KeySet.
(* the String method of url.URL and url.Parse, of the standard library *)
Variable URL_String : url.URL -> string.
Variable Parse : string -> goError + url.URL.
(* configClient.Get *)
Variable http_Get : string -> goError + Response.
(* json.NewDecoder(body).Decode(target), for the two targets in use *)
Variable decodeConfig : string -> goError + OpenIDConfig.
Variable decodeJWKS : string -> goError + JWKS.
(* base64.RawURLEncoding.DecodeString *)
Variable DecodeString : string -> goError + list byte.
(* int(x.Int64()) of a big.Int *)
Variable Int64 : Z -> Z.

(** [getJSON]: the URLs requested, and the error or the decoded target *)
Definition getJSON {T : Type} (decode : string -> goError + T) (u : url.URL)
  : list string * (goError + T) :=
  ([URL_String u],
   match http_Get (URL_String u) with
   | inl err => inl (WrapError ("http request failed: " +:+ Error err) err)
   | inr r =>
       if negb (StatusCode r =? 200) then
         inl (OpaqueError "*errors.errorString"
                ("Json fetch error " +:+ Status r +:+ " on " +:+ URL_String u))
       else decode (Body r)
   end).

Definition fromB64 (b64 : string) : Z * error :=
  match DecodeString b64 with
  | inl err => (0, Some (WrapError ("decoding B64 failed: " +:+ Error err) err))
  | inr b => (SetBytes b, None)
  end.

(** The loop of [createWebKeySet] over the keys, from the map built so far;
    a nil map comes with every error *)
Fixpoint rangeKeys (keys : list JWK) (jwksMap : gmap string rsa.PublicKey)
  : option (gmap string rsa.PublicKey) * error :=
  match keys with
  | [] => (Some jwksMap, None)
  | jwk :: rest =>
      if String.eqb (Kty jwk) "RSA" then
        let '(e, err) := fromB64 (E jwk) in
        match err with
        | Some err =>
            (None, Some (WrapError ("big int from  E: " +:+ Error err) err))
        | None =>
            let '(n, err) := fromB64 (N jwk) in
            match err with
            | Some err =>
                (None, Some (WrapError ("big int from  N: " +:+ Error err) err))
            | None =>
                rangeKeys rest
                  (<[Kid jwk := rsa.mkPublicKey n (Int64 e)]> jwksMap)
            end
        end
      else rangeKeys rest jwksMap
  end.

Definition createWebKeySet (keysetURL : url.URL)
  : list string * (option (gmap string rsa.PublicKey) * error) :=
  let '(requests, r) := getJSON decodeJWKS keysetURL in
  (requests,
   match r with
   | inl err =>
       (None, Some (WrapError ("fetching keyset failed: " +:+ Error err) err))
   | inr jwks =>
       if Nat.eqb (length (Keys jwks)) 0 then
         (None, Some (OpaqueError "*errors.errorString"
                        "could not create keyset. No keys in key set"))
       else rangeKeys (Keys jwks) ∅
   end).

Definition GetOIDCKeySet (authserver : option url.URL)
  : list string * (option (gmap string rsa.PublicKey) * error) :=
  match authserver with
  | None =>
      ([], (None, Some (OpaqueError "*errors.errorString"
                          "authserver is not found")))
  | Some a =>
      match Parse (URL_String a +:+ "/.well-known/openid-configuration") with
      | inl err =>
          ([], (None, Some (WrapError
                              ("oidcConf url parse failed: " +:+ Error err) err)))
      | inr u =>
          let '(requests, r) := getJSON decodeConfig u in
          match r with
          | inl err =>
              (requests,
               (None, Some (WrapError
                              ("fetching oidc config failed: " +:+ Error err)
                              err)))
          | inr oidcConf =>
              match Parse (JwksURI oidcConf) with
              | inl err =>
                  (requests,
                   (None, Some (WrapError
                                  ("jwks url parse failed: " +:+ Error err)
                                  err)))
              | inr u' =>
                  let '(requests', result) := createWebKeySet u' in
                  ((requests ++ requests')%list, result)
              end
          end
      end
  end.

(** The key that an RSA entry of the key set stands for *)
Definition publicKey (jwk : JWK) : rsa.PublicKey :=
  rsa.mkPublicKey (fst (fromB64 (N jwk))) (Int64 (fst (fromB64 (E jwk)))).

(** An entry that the loop can turn into a key *)
Definition decodes (jwk : JWK) : Prop :=
  snd (fromB64 (E jwk)) = None /\ snd (fromB64 (N jwk)) = None.

End KeySet.

(** The last RSA entry of a key set under a key identifier *)
Fixpoint lastRSA (kid : string) (keys : list JWK) : option JWK :=
  match keys with
  | [] => None
  | jwk :: rest =>
      match lastRSA kid rest with
      | Some later => Some later
      | None =>
          if String.eqb (Kty jwk) "RSA" && String.eqb (Kid jwk) kid
          then Some jwk else None
      end
  end.

End auth.

(** ** More stores and inputs for running scenarios *)

(** An origin for whose locators no client can be built *)
Definition brokenStore : BlobStore :=
  {| NewBlobClientWithNoCredential := fun _ =>
       Some (OpaqueError "*errors.errorString" "invalid URL");
     NewContainerClientWithNoCredential := fun _ => None;
     NewBlobClient := fun container name => container +:+ "/" +:+ name;
     Download := fun _ _ => inr (mkDownloadResponse None [] None) |}.

(** An origin whose bodies break off after [body] *)
Definition truncatedStore (body : list byte) : BlobStore :=
  {| NewBlobClientWithNoCredential := fun _ => None;
     NewContainerClientWithNoCredential := fun _ => None;
     NewBlobClient := fun container name => container +:+ "/" +:+ name;
     Download := fun _ _ =>
       inr (mkDownloadResponse (Some "v1") body
              (Some (OpaqueError "*errors.errorString" "unexpected EOF"))) |}.

(** A decoder of variables that accepts the empty object only *)
Definition sampleUnmarshal (text : string) : goError + string :=
  if String.eqb text "{}" then inr text
  else inl (OpaqueError "*json.SyntaxError" "invalid character").

Definition sampleQueryError (msg : string) : goError :=
  OpaqueError "internal.QueryError" msg.

Definition sampleQuery : gmap string (list string) :=
  {[ "query" := ["{ cube }"]; "variables" := ["{}"] ]}.

(** An authorization server: every request is answered with status 200, the
    configuration announces the key set at [http://idp/keys], and the key
    set has two RSA entries under the identifier [a] around an entry of
    another type *)
Definition sampleParse (rawurl : string) : goError + url.URL :=
  match url_Parse rawurl with
  | Some u => inr u
  | None => inl (OpaqueError "*url.Error" "parse")
  end.

Definition sampleHttpGet (target : string) : goError + auth.Response :=
  inr (auth.mkResponse 200 "200 OK" target).

Definition sampleKeys : list auth.JWK :=
  [ auth.mkJWK "RSA" "sig" "a" "" "AQ" "AQAB" [];
    auth.mkJWK "EC" "sig" "b" "" "" "" [];
    auth.mkJWK "RSA" "sig" "a" "" "Ag" "AQAB" [] ].

Definition sampleDecodeConfig (body : string) : goError + auth.OpenIDConfig :=
  inr (auth.mkOpenIDConfig "http://idp/keys").

Definition sampleDecodeJWKS (body : string) : goError + auth.JWKS :=
  inr (auth.mkJWKS sampleKeys).

(** A stand-in for the decoding of base64: the bytes of the text itself *)
Definition sampleDecodeString (text : string) : goError + list byte :=
  inr (list_byte_of_string text).

Definition sampleKeySet (u : url.URL)
  : list string * (option (gmap string rsa.PublicKey) * error) :=
  auth.createWebKeySet url_String sampleHttpGet sampleDecodeJWKS
                       sampleDecodeString id u.

Definition sampleOIDCKeySet (authserver : option url.URL)
  : list string * (option (gmap string rsa.PublicKey) * error) :=
  auth.GetOIDCKeySet url_String sampleParse sampleHttpGet sampleDecodeConfig
                     sampleDecodeJWKS sampleDecodeString id authserver.

Definition idp : url.URL := url.mkURL "http" "idp" "" "".
Definition idpKeys : url.URL := url.mkURL "http" "idp" "/keys" "".

(** * Properties *)

(** ** Tactics and general facts *)

Ltac unfold_M :=
  unfold cache_get, client_Download, log_Printf, go, deref, panic, emit, lift,
         mbind, mret, M_bind, M_ret in *.

Ltac run_M := unfold_M; simpl.

(* run Get up to the branch on the outcome of the download *)
Ltac Get_branch Hget Hdl :=
  unfold Get; run_M; rewrite Hget; simpl; rewrite Hdl; simpl.

Lemma append_assoc (s t u : string) : (s +:+ t) +:+ u = s +:+ (t +:+ u).
Proof.
  induction s as [|a s IH]; [reflexivity|].
  change (String a ((s +:+ t) +:+ u) = String a (s +:+ (t +:+ u))).
  now rewrite IH.
Qed.

Lemma append_empty_r (s : string) : s +:+ "" = s.
Proof.
  induction s as [|a s IH]; [reflexivity|].
  change (String a (s +:+ "") = String a s). now rewrite IH.
Qed.

Lemma includes_prefix (pre s post : string) : includes (pre +:+ s +:+ post) s.
Proof. now exists pre, post. Qed.

Lemma includes_suffix (pre s : string) : includes (pre +:+ s) s.
Proof. exists pre, "". now rewrite append_empty_r. Qed.

Lemma As_wraps (err : goError) (e : azblob.StorageError) :
  errors.As err = Some e <-> wraps_storage_error err e.
Proof.
  split.
  - induction err; simpl; intros Has; try discriminate.
    + injection Has as ->. constructor.
    + constructor. auto.
    + constructor. auto.
  - induction 1; simpl; auto.
Qed.

Lemma As_None_not_wraps (err : goError) :
  errors.As err = None <-> forall e, ~ wraps_storage_error err e.
Proof.
  split.
  - intros Hnone e Hw. apply As_wraps in Hw. congruence.
  - intros Hno. destruct (errors.As err) as [e|] eqn:Has; [|reflexivity].
    apply As_wraps in Has. now apply Hno in Has.
Qed.

(** What the download hands to [Get] when the origin reported a status *)
Lemma Unpack_reports_status (err : goError) (status : Z) :
  reports_status err status ->
  exists e, util.UnpackAzStorageError (Some err) = Some (AzStorageError e)
            /\ azblob.StatusCode e = status.
Proof.
  intros (e & [-> | Hw] & Hst); exists e; split; auto.
  apply As_wraps in Hw. unfold util.UnpackAzStorageError. now rewrite Hw.
Qed.

(** ** The error translator *)

(** C6: for every error value, [UnpackAzStorageError] either finds a storage
    error inside the envelopes of the backend and returns that storage error,
    unwrapped, or, when the error wraps no storage error, returns the error
    it was given (the nil error included). *)
Theorem UnpackAzStorageError_unwraps_or_identity (err : error) :
  (exists inner e,
      err = Some inner /\ wraps_storage_error inner e
      /\ util.UnpackAzStorageError err = Some (AzStorageError e))
  \/ ((forall inner e, err = Some inner -> ~ wraps_storage_error inner e)
      /\ util.UnpackAzStorageError err = err).
Proof.
  destruct err as [inner|]; simpl.
  - destruct (errors.As inner) as [e|] eqn:Has.
    + left. exists inner, e. apply As_wraps in Has. auto.
    + right. split; [|reflexivity].
      intros inner' e [= <-]. revert e. now apply As_None_not_wraps.
  - right. split; [|reflexivity]. intros inner e. discriminate.
Qed.

(** ** Cache keys *)

(** C5, as the code has it: two locators with the same host and path have
    the same key whatever their schemes and queries; the key is the host, a
    slash and the path; the locators [http://h/p?a=1] and [http://h/p?a=2]
    have the path [/p], so their common key is [h//p]. *)
Theorem newCacheKey_ignores_query (s1 s2 h p q1 q2 : string) :
  newCacheKey (url.mkURL s1 h p q1) = newCacheKey (url.mkURL s2 h p q2)
  /\ newCacheKey (url.mkURL s1 h p q1) = h +:+ "/" +:+ p
  /\ url_Parse "http://h/p?a=1" = Some locator1
  /\ url_Parse "http://h/p?a=2" = Some locator2
  /\ newCacheKey locator1 = "h//p"
  /\ newCacheKey locator2 = "h//p".
Proof. repeat split. Qed.

(** C5, as it is worded, fails: the key of [http://h/p?a=1] is not [h/p]. *)
Lemma newCacheKey_example_is_not_h_p :
  ~ (forall u1 u2 : url.URL,
        url_Parse "http://h/p?a=1" = Some u1 ->
        url_Parse "http://h/p?a=2" = Some u2 ->
        newCacheKey u1 = newCacheKey u2 /\ newCacheKey u1 = "h/p").
Proof.
  intros Hclaim.
  destruct (Hclaim locator1 locator2 eq_refl eq_refl) as [_ Hkey].
  vm_compute in Hkey. discriminate.
Qed.

(** ** The cache backends *)




(** The cache that keeps everything never loses an entry, for any key. *)
Lemma keepAll_get_after_set (c : gmap string any) (k : string) (v : cacheEntry) :
  @get _ keepAllCache (@set _ keepAllCache c k v) k = Done (v, true).
Proof.
  simpl. unfold ristrettoCache_get, ristrettoCache_set, keepAll_Set, keepAll_Get.
  simpl. now rewrite lookup_insert_eq.
Qed.

(** The disabled cache misses after every [set]. *)
Lemma noCache_get_after_set (c : noCache) (k k' : string) (v : cacheEntry) :
  get (set c k v) k' = Done (zeroEntry, false).
Proof. reflexivity. Qed.

(** ** The storage client *)

Section GetProperties.
Variable URL_String : url.URL -> string.
Context {C : Type} `{blobCache C}.
Variable az : BlobStore.

(** The download of [Get] when the client can be built and the origin
    answers with bytes that are read to the end *)
Lemma download_fresh (u : url.URL) (tag : option string) (dl : DownloadResponse) :
  NewBlobClientWithNoCredential az (URL_String u) = None ->
  Download az (URL_String u) tag = inr dl ->
  BodyErr dl = None ->
  download URL_String az u tag
  = mkM [EvDownload (URL_String u) tag]
        (Done (mkCacheEntry (Some (Body dl)) (ETag dl), None)).
Proof.
  intros Hclient Hdl Hread. unfold download. rewrite Hclient.
  run_M. rewrite Hdl. unfold ReadAll. now rewrite Hread.
Qed.

(** The download of [Get] when the origin reported a status *)
Lemma download_status (u : url.URL) (tag : option string) (err : goError)
    (status : Z) :
  NewBlobClientWithNoCredential az (URL_String u) = None ->
  Download az (URL_String u) tag = inl err ->
  reports_status err status ->
  exists e,
    azblob.StatusCode e = status
    /\ download URL_String az u tag
       = mkM [EvDownload (URL_String u) tag]
             (Done (zeroEntry, Some (AzStorageError e))).
Proof.
  intros Hclient Hdl Hst.
  destruct (Unpack_reports_status _ _ Hst) as (e & Hunpack & Hcode).
  exists e. split; [exact Hcode|].
  unfold download. rewrite Hclient. run_M. rewrite Hdl.
  simpl in Hunpack. now rewrite Hunpack.
Qed.

(** C7: with a nil locator [Get] returns an empty slice and an
    [InternalError] at once: no cache lookup, no download, nothing logged
    and no task started. *)
Theorem Get_nil_locator (c : C) :
  Get URL_String az c None
  = mkM [] (Done (Some [],
                  Some (DomainError (internal.InternalError "blob URL is nil")))).
Proof. reflexivity. Qed.

(** C2: when the cache holds an entry for the key of the locator and the
    origin answers the conditional download with 304, [Get] returns the
    payload of that entry and a nil error, after one lookup and one download
    that presents the validator of the entry; it starts no cache write. *)
Theorem Get_not_modified (c : C) (u : url.URL) (cached : cacheEntry)
    (err : goError) :
  get c (newCacheKey u) = Done (cached, true) ->
  NewBlobClientWithNoCredential az (URL_String u) = None ->
  Download az (URL_String u) (etag cached) = inl err ->
  reports_status err http.StatusNotModified ->
  Get URL_String az c (Some u)
  = mkM [EvCacheGet (newCacheKey u); EvDownload (URL_String u) (etag cached)]
        (Done (chunk cached, None))
  /\ started (trace (Get URL_String az c (Some u))) = [].
Proof.
  intros Hget Hclient Hdl Hst.
  destruct (download_status u _ _ _ Hclient Hdl Hst) as (e & Hcode & Hdownload).
  assert (Get URL_String az c (Some u)
          = mkM [EvCacheGet (newCacheKey u);
                 EvDownload (URL_String u) (etag cached)]
                (Done (chunk cached, None))) as Heq.
  { Get_branch Hget Hdownload. rewrite Hcode. reflexivity. }
  split; [exact Heq|]. now rewrite Heq.
Qed.

(** C3: on a miss, when the download succeeds with the bytes [B] and the
    validator [V2], [Get] returns [B] and a nil error, and the one thing it
    does after the download is to start a task that offers the entry made of
    [B] and [V2] to the cache under the key of the locator.  The write is
    that task's, not [Get]'s: the cache [Get] was given is only looked up. *)
Theorem Get_cold_fetch (c : C) (u : url.URL) (cached : cacheEntry)
    (dl : DownloadResponse) :
  get c (newCacheKey u) = Done (cached, false) ->
  NewBlobClientWithNoCredential az (URL_String u) = None ->
  Download az (URL_String u) (etag cached) = inr dl ->
  BodyErr dl = None ->
  Get URL_String az c (Some u)
  = mkM [EvCacheGet (newCacheKey u);
         EvDownload (URL_String u) (etag cached);
         EvGo (CacheSet (newCacheKey u)
                        (mkCacheEntry (Some (Body dl)) (ETag dl)))]
        (Done (Some (Body dl), None))
  /\ started (trace (Get URL_String az c (Some u)))
     = [CacheSet (newCacheKey u) (mkCacheEntry (Some (Body dl)) (ETag dl))].
Proof.
  intros Hget Hclient Hdl Hread.
  pose proof (download_fresh u _ _ Hclient Hdl Hread) as Hdownload.
  assert (Get URL_String az c (Some u)
          = mkM [EvCacheGet (newCacheKey u);
                 EvDownload (URL_String u) (etag cached);
                 EvGo (CacheSet (newCacheKey u)
                                (mkCacheEntry (Some (Body dl)) (ETag dl)))]
                (Done (Some (Body dl), None))) as Heq.
  { Get_branch Hget Hdownload. reflexivity. }
  split; [exact Heq|]. now rewrite Heq.
Qed.

(** C1: on a hit, when the conditional download (the one that presents the
    validator of the cached entry) succeeds all the same with a body, [Get]
    logs the validator and the locator and then returns a nil slice with an
    [InternalError]: neither the cached bytes nor the new ones, and no task
    is started. *)
Theorem Get_hit_fresh_with_etag (c : C) (u : url.URL) (cached : cacheEntry)
    (tag : string) (dl : DownloadResponse) :
  get c (newCacheKey u) = Done (cached, true) ->
  etag cached = Some tag ->
  NewBlobClientWithNoCredential az (URL_String u) = None ->
  Download az (URL_String u) (Some tag) = inr dl ->
  BodyErr dl = None ->
  Get URL_String az c (Some u)
  = mkM [EvCacheGet (newCacheKey u);
         EvDownload (URL_String u) (Some tag);
         EvLog ("ETag (= " +:+ tag +:+ ") expired for "
                +:+ URL_String u +:+ "; investigate immediately")]
        (Done (None, Some (DomainError internal.NewInternalError))).
Proof.
  intros Hget Htag Hclient Hdl Hread.
  pose proof (download_fresh u _ _ Hclient Hdl Hread) as Hdownload.
  rewrite <- Htag in Hdownload.
  Get_branch Hget Hdownload. now rewrite Htag.
Qed.

(** C10: on a hit whose entry carries no validator (a nil [etag]), the
    download is unconditional; when it succeeds, [Get] panics on the
    dereference of the validator, before it has logged anything and instead
    of returning an [InternalError]. *)
Theorem Get_hit_nil_etag_panics (c : C) (u : url.URL) (cached : cacheEntry)
    (dl : DownloadResponse) :
  get c (newCacheKey u) = Done (cached, true) ->
  etag cached = None ->
  NewBlobClientWithNoCredential az (URL_String u) = None ->
  Download az (URL_String u) None = inr dl ->
  BodyErr dl = None ->
  Get URL_String az c (Some u)
  = mkM [EvCacheGet (newCacheKey u); EvDownload (URL_String u) None]
        (Panicked "invalid memory address or nil pointer dereference").
Proof.
  intros Hget Htag Hclient Hdl Hread.
  pose proof (download_fresh u _ _ Hclient Hdl Hread) as Hdownload.
  rewrite <- Htag in Hdownload.
  Get_branch Hget Hdownload. now rewrite Htag.
Qed.

End GetProperties.

(** ** Translation of download errors *)

Section Translation.
Variable URL_String : url.URL -> string.
Context {C : Type} `{blobCache C}.
Variable az : BlobStore.

(** C4, as the code has it: an error of the download is translated by its
    dynamic type and status.  A storage error with status 304 is no failure:
    the cached payload is returned with a nil error.  Status 404 gives
    [NotFound] with a message that includes the host and the path of the
    locator; 403 and 401 give [PermissionDenied]; every other status gives
    [InternalError]; an error that is not a storage error gives
    [InternalError]. *)
Theorem Get_translates_download_errors (c : C) (u : url.URL)
    (cached cold : cacheEntry) (hit : bool) (tr : list event) (err : goError) :
  get c (newCacheKey u) = Done (cached, hit) ->
  download URL_String az u (etag cached) = mkM tr (Done (cold, Some err)) ->
  let r := outcome (Get URL_String az c (Some u)) in
  (forall e, err = AzStorageError e ->
     azblob.StatusCode e = http.StatusNotModified ->
     r = Done (chunk cached, None))
  /\ (forall e, err = AzStorageError e ->
        azblob.StatusCode e = http.StatusNotFound ->
        exists msg,
          r = Done (None, Some (DomainError (internal.NotFound msg)))
          /\ includes msg (url.Host u) /\ includes msg (url.Path u))
  /\ (forall e, err = AzStorageError e ->
        azblob.StatusCode e = http.StatusForbidden
        \/ azblob.StatusCode e = http.StatusUnauthorized ->
        exists d,
          r = Done (None, Some (DomainError d))
          /\ internal.errKind d = internal.KPermissionDenied)
  /\ (forall e, err = AzStorageError e ->
        azblob.StatusCode e <> http.StatusNotModified ->
        azblob.StatusCode e <> http.StatusNotFound ->
        azblob.StatusCode e <> http.StatusForbidden ->
        azblob.StatusCode e <> http.StatusUnauthorized ->
        exists d,
          r = Done (None, Some (DomainError d))
          /\ internal.errKind d = internal.KInternalError)
  /\ ((forall e, err <> AzStorageError e) ->
        exists d,
          r = Done (None, Some (DomainError d))
          /\ internal.errKind d = internal.KInternalError).
Proof.
  intros Hget Hdownload r. subst r.
  repeat split.
  - intros e -> Hcode. Get_branch Hget Hdownload. now rewrite Hcode.
  - intros e -> Hcode. eexists. split.
    + Get_branch Hget Hdownload. rewrite Hcode. reflexivity.
    + split.
      * apply includes_prefix.
      * exists ("Not found: " +:+ url.Host u +:+ "/"), "".
        now rewrite append_empty_r, !append_assoc.
  - intros e -> [Hcode | Hcode]; eexists; (split;
      [Get_branch Hget Hdownload; rewrite Hcode; reflexivity | reflexivity]).
  - intros e -> H304 H404 H403 H401. eexists. split.
    + Get_branch Hget Hdownload.
      apply Z.eqb_neq in H304, H404, H403, H401.
      rewrite H304, H404, H403, H401. reflexivity.
    + reflexivity.
  - intros Hother. eexists. split.
    + Get_branch Hget Hdownload.
      destruct err; try reflexivity. now destruct (Hother e).
    + reflexivity.
Qed.

(** Whatever error the download ends with, [Get] returns: it panics on no
    failed download. *)
Lemma Get_returns_on_download_error (c : C) (u : url.URL)
    (cached cold : cacheEntry) (hit : bool) (tr : list event) (err : goError) :
  get c (newCacheKey u) = Done (cached, hit) ->
  download URL_String az u (etag cached) = mkM tr (Done (cold, Some err)) ->
  exists bytes e, outcome (Get URL_String az c (Some u)) = Done (bytes, e).
Proof.
  intros Hget Hdownload. Get_branch Hget Hdownload.
  destruct err; try (eexists _, _; reflexivity).
  repeat (match goal with |- context [if ?b then _ else _] => destruct b end);
    eexists _, _; reflexivity.
Qed.

(** ** The manifest gate *)

(** [FetchManifest] starts no task and looks nothing up in the cache: all it
    does happens before it returns. *)
Lemma FetchManifest_blocking (containerURL : option url.URL) :
  started (trace (FetchManifest URL_String az containerURL)) = []
  /\ lookups (trace (FetchManifest URL_String az containerURL)) = []
  /\ forall d, In d (downloads (trace (FetchManifest URL_String az containerURL))) ->
       exists cu, containerURL = Some cu
                  /\ d = (NewBlobClient az (URL_String cu) "manifest.json", None).
Proof.
  unfold FetchManifest. destruct containerURL as [cu|]; run_M.
  - destruct (NewContainerClientWithNoCredential az (URL_String cu)); simpl.
    + repeat split. intros d [].
    + destruct (Download az _ None) as [err|resp]; simpl;
        (repeat split; intros d [<- | []]; now exists cu).
  - repeat split. intros d [].
Qed.

(** The request starts with the fetch of the manifest. *)
Lemma serveRequest_manifest_first (c : C) (containerURL : option url.URL)
    (fragments : list url.URL) :
  exists rest,
    trace (serveRequest URL_String az c containerURL fragments)
    = (trace (FetchManifest URL_String az containerURL) ++ rest)%list.
Proof.
  unfold serveRequest. unfold mbind at 1. unfold M_bind at 1.
  destruct (FetchManifest URL_String az containerURL) as [tr [[m e]|why]];
    simpl.
  - eexists. reflexivity.
  - exists []. now rewrite app_nil_r.
Qed.

(** C9: when the fetch of the manifest ends with an error, whatever it is,
    the request ends there with that error: its events are those of the
    fetch of the manifest, which are no cache lookup, no started task and at
    most the download of the manifest itself; no fragment is fetched. *)
Theorem serveRequest_manifest_gate (c : C) (containerURL : option url.URL)
    (fragments : list url.URL) (tr : list event) (bytes : byteSlice)
    (e : goError) :
  FetchManifest URL_String az containerURL = mkM tr (Done (bytes, Some e)) ->
  serveRequest URL_String az c containerURL fragments
  = mkM tr (Done ([], Some e))
  /\ lookups tr = []
  /\ started tr = []
  /\ forall d, In d (downloads tr) ->
       exists cu, containerURL = Some cu
                  /\ d = (NewBlobClient az (URL_String cu) "manifest.json", None).
Proof.
  intros Hfetch.
  destruct (FetchManifest_blocking containerURL) as (Hstarted & Hlookups & Hdl).
  rewrite Hfetch in Hstarted, Hlookups, Hdl. simpl in *.
  repeat split; auto.
  unfold serveRequest. unfold mbind at 1. unfold M_bind at 1.
  rewrite Hfetch. simpl. now rewrite app_nil_r.
Qed.

End Translation.

(** ** Scenarios *)

Lemma Get_not_modified_witness :
  keepAll_Get_blob (etagStore "v1" payloadB) (cacheWith entryC) (Some locator1)
  = mkM [EvCacheGet "h//p"; EvDownload "http://h/p?a=1" (Some "v1")]
        (Done (Some payloadC, None))
  /\ started (trace (keepAll_Get_blob (etagStore "v1" payloadB)
                                      (cacheWith entryC) (Some locator1))) = [].
Proof.
  apply (@Get_not_modified url_String _ keepAllCache (etagStore "v1" payloadB)
           (cacheWith entryC) locator1 entryC
           (AzInternalError
              (AzStorageErrorPtr
                 (azblob.mkStorageError http.StatusNotModified
                                        "The condition was not met")))).
  - vm_compute. reflexivity.
  - reflexivity.
  - reflexivity.
  - eexists. split; [right; repeat constructor | reflexivity].
Defined.

Lemma Get_cold_fetch_witness :
  keepAll_Get_blob (freshStore (Some "v2") payloadB) ∅ (Some locator1)
  = mkM [EvCacheGet "h//p"; EvDownload "http://h/p?a=1" None;
         EvGo (CacheSet "h//p" (mkCacheEntry (Some payloadB) (Some "v2")))]
        (Done (Some payloadB, None))
  /\ started (trace (keepAll_Get_blob (freshStore (Some "v2") payloadB) ∅
                                      (Some locator1)))
     = [CacheSet "h//p" (mkCacheEntry (Some payloadB) (Some "v2"))].
Proof.
  apply (@Get_cold_fetch url_String _ keepAllCache
           (freshStore (Some "v2") payloadB) ∅ locator1 zeroEntry
           (mkDownloadResponse (Some "v2") payloadB None)).
  - vm_compute. reflexivity.
  - reflexivity.
  - reflexivity.
  - reflexivity.
Defined.

(** After the task of a cold fetch has run, the cache that keeps everything
    answers the key of the locator with the entry that was fetched. *)
Lemma cold_fetch_then_hit :
  @get _ keepAllCache
       (settle ∅ (trace (keepAll_Get_blob (freshStore (Some "v2") payloadB) ∅
                                          (Some locator1))))
       (newCacheKey locator1)
  = Done (mkCacheEntry (Some payloadB) (Some "v2"), true).
Proof. vm_compute. reflexivity. Qed.

Lemma Get_hit_nil_etag_panics_witness :
  keepAll_Get_blob (freshStore (Some "v2") payloadB)
                   (cacheWith (mkCacheEntry (Some payloadC) None))
                   (Some locator1)
  = mkM [EvCacheGet "h//p"; EvDownload "http://h/p?a=1" None]
        (Panicked "invalid memory address or nil pointer dereference").
Proof.
  apply (@Get_hit_nil_etag_panics url_String _ keepAllCache
           (freshStore (Some "v2") payloadB)
           (cacheWith (mkCacheEntry (Some payloadC) None)) locator1
           (mkCacheEntry (Some payloadC) None)
           (mkDownloadResponse (Some "v2") payloadB None)).
  - vm_compute. reflexivity.
  - reflexivity.
  - reflexivity.
  - reflexivity.
  - reflexivity.
Defined.

Lemma Get_hit_fresh_with_etag_witness :
  keepAll_Get_blob (freshStore (Some "v2") payloadB) (cacheWith entryC)
                   (Some locator1)
  = mkM [EvCacheGet "h//p"; EvDownload "http://h/p?a=1" (Some "v1");
         EvLog "ETag (= v1) expired for http://h/p?a=1; investigate immediately"]
        (Done (None, Some (DomainError internal.NewInternalError))).
Proof.
  apply (@Get_hit_fresh_with_etag url_String _ keepAllCache
           (freshStore (Some "v2") payloadB) (cacheWith entryC) locator1
           entryC "v1" (mkDownloadResponse (Some "v2") payloadB None)).
  - vm_compute. reflexivity.
  - reflexivity.
  - reflexivity.
  - reflexivity.
  - reflexivity.
Defined.

(** C4, as it is worded, fails: with three statuses set apart and every
    other one sent to [InternalError], status 304 would be an
    [InternalError]; [Get] returns a nil error for it. *)
Lemma Get_not_modified_is_no_InternalError :
  ~ (forall (az : BlobStore) (c : gmap string any) (u : url.URL)
            (cached cold : cacheEntry) (hit : bool) (tr : list event)
            (err : goError),
        @get _ keepAllCache c (newCacheKey u) = Done (cached, hit) ->
        download url_String az u (etag cached)
        = mkM tr (Done (cold, Some err)) ->
        exists bytes d,
          outcome (keepAll_Get_blob az c (Some u))
          = Done (bytes, Some (DomainError d))
          /\ internal.errKind d = three_status_translation err).
Proof.
  intros Hclaim.
  destruct (Hclaim (statusStore http.StatusNotModified) (cacheWith entryC)
                   locator1 entryC zeroEntry true
                   [EvDownload "http://h/p?a=1" (Some "v1")]
                   (AzStorageError
                      (azblob.mkStorageError http.StatusNotModified "status")))
    as (bytes & d & Hout & _).
  - vm_compute. reflexivity.
  - vm_compute. reflexivity.
  - vm_compute in Hout. discriminate.
Qed.

Lemma Get_translates_download_errors_witness :
  exists msg,
    outcome (keepAll_Get_blob (statusStore http.StatusNotFound) ∅
                              (Some locator1))
    = Done (None, Some (DomainError (internal.NotFound msg)))
    /\ includes msg "h" /\ includes msg "/p".
Proof.
  destruct (@Get_translates_download_errors url_String _ keepAllCache
              (statusStore http.StatusNotFound) ∅ locator1 zeroEntry zeroEntry
              false [EvDownload "http://h/p?a=1" None]
              (AzStorageError
                 (azblob.mkStorageError http.StatusNotFound "status")))
    as (_ & Hnotfound & _).
  - vm_compute. reflexivity.
  - vm_compute. reflexivity.
  - exact (Hnotfound _ eq_refl eq_refl).
Defined.

Lemma serveRequest_manifest_gate_witness :
  @serveRequest url_String _ keepAllCache (statusStore http.StatusForbidden)
                ∅ (Some container1) [locator1; locator2]
  = mkM [EvDownload "http://h/cube/manifest.json" None]
        (Done ([], Some (AzStorageError
                           (azblob.mkStorageError http.StatusForbidden
                                                  "status")))).
Proof.
  apply (@serveRequest_manifest_gate url_String _ keepAllCache
           (statusStore http.StatusForbidden) ∅ (Some container1)
           [locator1; locator2]
           [EvDownload "http://h/cube/manifest.json" None] None).
  vm_compute. reflexivity.
Defined.

(** * Further properties of the storage client *)

Ltac split_cases :=
  repeat match goal with
         | |- context [match ?x with _ => _ end] => destruct x eqn:?; simpl
         end.

Section GetDiscipline.
Variable URL_String : url.URL -> string.
Context {C : Type} `{blobCache C}.
Variable az : BlobStore.

(** Whenever [Get] returns an error, that error is a domain error and the
    slice that comes with it is nil or empty: no error of the backend and no
    payload ever accompanies a failure. *)
Theorem Get_error_is_domain_error (c : C) (bloburl : option url.URL)
    (bytes : byteSlice) (e : goError) :
  outcome (Get URL_String az c bloburl) = Done (bytes, Some e) ->
  (exists d, e = DomainError d) /\ (bytes = None \/ bytes = Some []).
Proof.
  destruct bloburl as [u|]; simpl.
  - unfold Get, download. run_M.
    destruct (get c (newCacheKey u)) as [[cached hit]|why]; simpl;
      [|discriminate].
    destruct (NewBlobClientWithNoCredential az (URL_String u)); simpl.
    + intros [= <- <-]. eauto.
    + destruct (Download az (URL_String u) (etag cached)) as [err|dl]; simpl.
      * destruct (errors.As err); simpl.
        -- split_cases; intros [= <- <-]; eauto.
        -- destruct err; simpl; split_cases; intros [= <- <-]; eauto.
      * destruct (BodyErr dl) as [rerr|]; simpl.
        -- destruct rerr; simpl; split_cases; intros [= <- <-]; eauto.
        -- destruct hit; simpl.
           ++ destruct (etag cached); simpl; [|discriminate].
              intros [= <- <-]. eauto.
           ++ discriminate.
  - intros [= <- <-]. eauto.
Qed.

(** [Get] returns, on an error of the origin as on a body, as long as the
    lookup returns, a hit comes with a validator, and a body of the origin
    comes with an [ETag] (on a response without one the [Download] of
    [azblob] does not return). *)
Theorem Get_returns (c : C) (u : url.URL) (cached : cacheEntry) (hit : bool) :
  get c (newCacheKey u) = Done (cached, hit) ->
  (hit = true -> etag cached <> None) ->
  (forall dl, Download az (URL_String u) (etag cached) = inr dl ->
              ETag dl <> None) ->
  exists bytes err,
    outcome (Get URL_String az c (Some u)) = Done (bytes, err).
Proof.
  intros Hget Hvalid _. unfold Get, download. run_M. rewrite Hget. simpl.
  destruct (NewBlobClientWithNoCredential az (URL_String u)); simpl;
    [eauto|].
  destruct (Download az (URL_String u) (etag cached)) as [err|dl]; simpl.
  - destruct (errors.As err); simpl.
    + split_cases; eauto.
    + destruct err; simpl; split_cases; eauto.
  - destruct (BodyErr dl) as [rerr|]; simpl.
    + destruct rerr; simpl; split_cases; eauto.
    + destruct hit; simpl; [|eauto].
      destruct (etag cached); simpl; [eauto|]. now destruct Hvalid.
Qed.

(** One [Get] costs one lookup, under the key of the locator, and at most
    one download, of the locator itself under the validator of the looked-up
    entry; it starts at most one task. *)
Theorem Get_footprint (c : C) (u : url.URL) (cached : cacheEntry) (hit : bool) :
  get c (newCacheKey u) = Done (cached, hit) ->
  let tr := trace (Get URL_String az c (Some u)) in
  lookups tr = [newCacheKey u]
  /\ (downloads tr = [] \/ downloads tr = [(URL_String u, etag cached)])
  /\ (length (started tr) <= 1)%nat.
Proof.
  intros Hget. unfold Get, download. run_M. rewrite Hget. simpl.
  destruct (NewBlobClientWithNoCredential az (URL_String u)); simpl.
  - repeat split; auto.
  - destruct (Download az (URL_String u) (etag cached)) as [err|dl]; simpl.
    + destruct (errors.As err); simpl.
      * split_cases; repeat split; auto.
      * destruct err; simpl; split_cases; repeat split; auto.
    + destruct (BodyErr dl) as [rerr|]; simpl.
      * destruct rerr; simpl; split_cases; repeat split; auto.
      * destruct hit; simpl; [|repeat split; auto].
        destruct (etag cached); simpl; repeat split; auto.
Qed.

(** What [Get] offers to the cache is what it returns: a started task
    stores, under the key of the locator, an entry whose payload is the
    slice handed to the caller with a nil error, and this happens on a miss
    only. *)
Theorem Get_caches_what_it_returns (c : C) (u : url.URL) (k : string)
    (v : cacheEntry) :
  In (CacheSet k v) (started (trace (Get URL_String az c (Some u)))) ->
  k = newCacheKey u
  /\ outcome (Get URL_String az c (Some u)) = Done (chunk v, None)
  /\ (exists body, chunk v = Some body)
  /\ (exists cached, get c (newCacheKey u) = Done (cached, false)).
Proof.
  unfold Get, download. run_M.
  destruct (get c (newCacheKey u)) as [[cached hit]|why]; simpl;
    [|intros []].
  destruct (NewBlobClientWithNoCredential az (URL_String u)); simpl;
    [intros []|].
  destruct (Download az (URL_String u) (etag cached)) as [err|dl]; simpl.
  - destruct (errors.As err); simpl.
    + split_cases; intros [].
    + destruct err; simpl; split_cases; intros [].
  - destruct (BodyErr dl) as [rerr|]; simpl.
    + destruct rerr; simpl; split_cases; intros [].
    + destruct hit; simpl.
      * destruct (etag cached); simpl; intros [].
      * intros [[= <- <-]|[]]. simpl. eauto 10.
Qed.

(** When no client can be built for the locator, [Get] asks the origin
    nothing and starts nothing: it logs and returns an [InternalError] that
    carries the text of the failure, on a hit as well as on a miss. *)
Theorem Get_client_failure (c : C) (u : url.URL) (cached : cacheEntry)
    (hit : bool) (err : goError) :
  get c (newCacheKey u) = Done (cached, hit) ->
  NewBlobClientWithNoCredential az (URL_String u) = Some err ->
  outcome (Get URL_String az c (Some u))
  = Done (None, Some (DomainError (internal.InternalError (Error err))))
  /\ downloads (trace (Get URL_String az c (Some u))) = []
  /\ started (trace (Get URL_String az c (Some u))) = [].
Proof.
  intros Hget Hclient. unfold Get, download. run_M. rewrite Hget. simpl.
  rewrite Hclient. simpl. repeat split.
Qed.

(** A body that cannot be read to the end is never cached, and the bytes
    read so far are never returned.  Unless the error of the read is itself a
    bare storage error, [Get] returns an [InternalError] with the text of
    that error: an envelope around a storage error is not opened here, so a
    wrapped 404 met while reading is an [InternalError], not a [NotFound]. *)
Theorem Get_partial_read (c : C) (u : url.URL) (cached : cacheEntry)
    (hit : bool) (dl : DownloadResponse) (rerr : goError) :
  get c (newCacheKey u) = Done (cached, hit) ->
  NewBlobClientWithNoCredential az (URL_String u) = None ->
  Download az (URL_String u) (etag cached) = inr dl ->
  BodyErr dl = Some rerr ->
  started (trace (Get URL_String az c (Some u))) = []
  /\ (exists bytes err,
        outcome (Get URL_String az c (Some u)) = Done (bytes, err)
        /\ (bytes = None \/ bytes = chunk cached))
  /\ ((forall e, rerr <> AzStorageError e) ->
        outcome (Get URL_String az c (Some u))
        = Done (None, Some (DomainError (internal.InternalError (Error rerr))))).
Proof.
  intros Hget Hclient Hdl Hread. unfold Get, download. run_M.
  rewrite Hget. simpl. rewrite Hclient. simpl. rewrite Hdl. simpl.
  rewrite Hread. simpl.
  destruct rerr; simpl; split_cases;
    (repeat split; eauto; intros Hother; now destruct (Hother e)).
Qed.

End GetDiscipline.

Section Revalidation.
Variable URL_String : url.URL -> string.
Context {C : Type} `{blobCache C}.
Variable az : BlobStore.

(** Fetch, then revalidate.  After a cold fetch of a locator has been
    written to a cache that keeps it, a [Get] of any locator with the same
    host and path -- the same one, or one with another query string --
    presents the validator of the first fetch to the origin and, on 304,
    returns the bytes of the first fetch, without a new write. *)
Theorem Get_revalidates_after_cold_fetch (c : C) (u1 u2 : url.URL)
    (cached : cacheEntry) (dl : DownloadResponse) (err : goError) :
  url.Host u2 = url.Host u1 ->
  url.Path u2 = url.Path u1 ->
  get c (newCacheKey u1) = Done (cached, false) ->
  NewBlobClientWithNoCredential az (URL_String u1) = None ->
  Download az (URL_String u1) (etag cached) = inr dl ->
  BodyErr dl = None ->
  get (set c (newCacheKey u1) (mkCacheEntry (Some (Body dl)) (ETag dl)))
      (newCacheKey u1)
  = Done (mkCacheEntry (Some (Body dl)) (ETag dl), true) ->
  NewBlobClientWithNoCredential az (URL_String u2) = None ->
  Download az (URL_String u2) (ETag dl) = inl err ->
  reports_status err http.StatusNotModified ->
  let first := Get URL_String az c (Some u1) in
  let second := Get URL_String az (after_tasks c (trace first)) (Some u2) in
  outcome first = Done (Some (Body dl), None)
  /\ outcome second = Done (Some (Body dl), None)
  /\ downloads (trace second) = [(URL_String u2, ETag dl)]
  /\ started (trace second) = [].
Proof.
  intros Hhost Hpath Hget Hclient1 Hdl1 Hread Hkept Hclient2 Hdl2 Hst.
  pose proof (download_fresh URL_String az u1 _ _ Hclient1 Hdl1 Hread) as Hfirst.
  assert (Get URL_String az c (Some u1)
          = mkM [EvCacheGet (newCacheKey u1);
                 EvDownload (URL_String u1) (etag cached);
                 EvGo (CacheSet (newCacheKey u1)
                                (mkCacheEntry (Some (Body dl)) (ETag dl)))]
                (Done (Some (Body dl), None))) as Heq1.
  { Get_branch Hget Hfirst. reflexivity. }
  assert (newCacheKey u2 = newCacheKey u1) as Hkey.
  { unfold newCacheKey. now rewrite Hhost, Hpath. }
  intros first second. subst first second. rewrite Heq1.
  unfold after_tasks. simpl.
  rewrite <- Hkey in Hkept at 2.
  destruct (download_status URL_String az u2 _ _ _ Hclient2 Hdl2 Hst)
    as (e & Hcode & Hsecond).
  split; [reflexivity|].
  Get_branch Hkept Hsecond. rewrite Hcode. simpl. repeat split.
Qed.

(** The mirror case: after the same cold fetch, when the origin answers the
    revalidation with a body instead of 304, [Get] serves neither the old
    bytes nor the new ones and writes nothing.  (The cold fetch must have
    come with a validator, [tag].) *)
Theorem Get_refuses_changed_blob (c : C) (u : url.URL)
    (cached : cacheEntry) (dl dl' : DownloadResponse) (tag : string) :
  get c (newCacheKey u) = Done (cached, false) ->
  NewBlobClientWithNoCredential az (URL_String u) = None ->
  Download az (URL_String u) (etag cached) = inr dl ->
  BodyErr dl = None ->
  ETag dl = Some tag ->
  get (set c (newCacheKey u) (mkCacheEntry (Some (Body dl)) (ETag dl)))
      (newCacheKey u)
  = Done (mkCacheEntry (Some (Body dl)) (ETag dl), true) ->
  Download az (URL_String u) (Some tag) = inr dl' ->
  BodyErr dl' = None ->
  let first := Get URL_String az c (Some u) in
  let second := Get URL_String az (after_tasks c (trace first)) (Some u) in
  outcome second = Done (None, Some (DomainError internal.NewInternalError))
  /\ started (trace second) = [].
Proof.
  intros Hget Hclient Hdl Hread Htag Hkept Hdl' Hread'.
  pose proof (download_fresh URL_String az u _ _ Hclient Hdl Hread) as Hfirst.
  assert (Get URL_String az c (Some u)
          = mkM [EvCacheGet (newCacheKey u);
                 EvDownload (URL_String u) (etag cached);
                 EvGo (CacheSet (newCacheKey u)
                                (mkCacheEntry (Some (Body dl)) (ETag dl)))]
                (Done (Some (Body dl), None))) as Heq1.
  { Get_branch Hget Hfirst. reflexivity. }
  intros first second. subst first second. rewrite Heq1.
  unfold after_tasks. simpl.
  pose proof (download_fresh URL_String az u _ _ Hclient Hdl' Hread')
    as Hsecond.
  rewrite <- Htag in Hsecond.
  Get_branch Hkept Hsecond. rewrite Htag. simpl. repeat split.
Qed.

End Revalidation.

(** * The backends under the client *)

Section Backends.
Variable URL_String : url.URL -> string.
Variable az : BlobStore.

(** With the disabled cache every download that [Get] issues is
    unconditional, and the tasks it starts leave the cache as it was: every
    [Get] is a cold fetch, whatever was fetched before. *)
Theorem Get_noCache_always_cold (c : noCache) (bloburl : option url.URL) :
  (forall d, In d (downloads (trace (Get URL_String az c bloburl))) ->
     exists u, bloburl = Some u /\ d = (URL_String u, None))
  /\ after_tasks c (trace (Get URL_String az c bloburl)) = c.
Proof.
  destruct bloburl as [u|]; simpl.
  - unfold Get, download, after_tasks. run_M.
    destruct (NewBlobClientWithNoCredential az (URL_String u)); simpl.
    + repeat split; eauto. intros d [].
    + destruct (Download az (URL_String u) None) as [err|dl]; simpl.
      * destruct (errors.As err); simpl.
        -- split_cases; (repeat split; eauto; intros d [<-|[]]; eauto).
        -- destruct err; simpl; split_cases;
             (repeat split; eauto; intros d [<-|[]]; eauto).
      * destruct (BodyErr dl) as [rerr|]; simpl.
        -- destruct rerr; simpl; split_cases;
             (repeat split; eauto; intros d [<-|[]]; eauto).
        -- repeat split; eauto. intros d [<-|[]]; eauto.
  - repeat split; eauto. intros d [].
Qed.

(** The client of [storage.go] and the caching client over the disabled
    cache agree on every fetch that succeeds: the same bytes, a nil error,
    one unconditional download. *)
Theorem Get_noCache_agrees_with_uncached (c : noCache)
    (bloburl : option url.URL) (bytes : byteSlice) :
  outcome (uncached.Get URL_String az bloburl) = Done (bytes, None) ->
  outcome (Get URL_String az c bloburl) = Done (bytes, None)
  /\ downloads (trace (Get URL_String az c bloburl))
     = downloads (trace (uncached.Get URL_String az bloburl)).
Proof.
  destruct bloburl as [u|]; simpl; [|discriminate].
  unfold uncached.Get, Get, download. run_M.
  destruct (NewBlobClientWithNoCredential az (URL_String u)); simpl;
    [discriminate|].
  destruct (Download az (URL_String u) None) as [err|dl]; simpl;
    [discriminate|].
  unfold ReadAll. destruct (BodyErr dl) as [rerr|]; simpl; [discriminate|].
  intros [= <-]. split; reflexivity.
Qed.

Section OverRistretto.
Variable Cache : Type.
Variable Cache_Set : Cache -> string -> any -> Z -> Cache * bool.
Variable Cache_Get : Cache -> string -> any * bool.

(** With the cache of [ristretto], a miss in the library makes the download
    unconditional whatever value the library answers with; if the origin
    then reports 304 all the same, [Get] returns a nil slice together with a
    nil error. *)
Theorem Get_miss_not_modified (c : Cache) (u : url.URL) (v : any)
    (err : goError) :
  Cache_Get c (newCacheKey u) = (v, false) ->
  NewBlobClientWithNoCredential az (URL_String u) = None ->
  Download az (URL_String u) None = inl err ->
  reports_status err http.StatusNotModified ->
  @Get URL_String _ (ristrettoCache Cache Cache_Set Cache_Get) az c (Some u)
  = mkM [EvCacheGet (newCacheKey u); EvDownload (URL_String u) None]
        (Done (None, None)).
Proof.
  intros Hmiss Hclient Hdl Hst.
  destruct (download_status URL_String az u None _ _ Hclient Hdl Hst)
    as (e & Hcode & Hdownload).
  unfold Get. run_M. unfold ristrettoCache_get. rewrite Hmiss. simpl.
  rewrite Hdownload. simpl. rewrite Hcode. reflexivity.
Qed.

(** When the library answers a hit with a value that is not a cache entry,
    the type assertion of the wrapper panics, and [Get] with it, before any
    download. *)
Theorem Get_foreign_value_panics (c : Cache) (u : url.URL) (v : any) :
  Cache_Get c (newCacheKey u) = (v, true) ->
  (forall e, v <> AnyCacheEntry e) ->
  exists why,
    @Get URL_String _ (ristrettoCache Cache Cache_Set Cache_Get) az c (Some u)
    = mkM [EvCacheGet (newCacheKey u)] (Panicked why).
Proof.
  intros Hhit Hforeign. unfold Get. run_M. unfold ristrettoCache_get.
  rewrite Hhit. destruct v as [|e|typ]; simpl.
  - eexists. reflexivity.
  - now destruct (Hforeign e).
  - eexists. reflexivity.
Qed.

End OverRistretto.
End Backends.

(** * Further properties of the helpers of [util] *)

(** Unpacking twice is unpacking once: what [UnpackAzStorageError] returns
    has no pointer to a storage error left inside. *)
Theorem UnpackAzStorageError_idempotent (err : error) :
  util.UnpackAzStorageError (util.UnpackAzStorageError err)
  = util.UnpackAzStorageError err.
Proof.
  destruct err as [e|]; simpl; [|reflexivity].
  destruct (errors.As e) eqn:Has; simpl; [reflexivity|]. now rewrite Has.
Qed.

Section ManifestProperties.
Variable URL_String : url.URL -> string.
Variable az : BlobStore.

(** [FetchManifest] hands a failure of the origin to its caller unwrapped
    but untranslated: a status reported by the origin comes back as a bare
    storage error with that status (a 404 is no [NotFound] here), with a nil
    slice, after one unconditional download of [manifest.json]. *)
Theorem FetchManifest_status (cu : url.URL) (err : goError) (status : Z) :
  NewContainerClientWithNoCredential az (URL_String cu) = None ->
  Download az (NewBlobClient az (URL_String cu) "manifest.json") None
  = inl err ->
  reports_status err status ->
  exists e,
    azblob.StatusCode e = status
    /\ FetchManifest URL_String az (Some cu)
       = mkM [EvDownload (NewBlobClient az (URL_String cu) "manifest.json") None]
             (Done (None, Some (AzStorageError e))).
Proof.
  intros Hclient Hdl Hst.
  destruct (Unpack_reports_status _ _ Hst) as (e & Hunpack & Hcode).
  exists e. split; [exact Hcode|].
  unfold FetchManifest. run_M. rewrite Hclient. simpl. rewrite Hdl. simpl.
  simpl in Hunpack. now rewrite Hunpack.
Qed.

(** Unlike [Get], [FetchManifest] returns what it has read of a body
    together with the error that stopped the reading. *)
Theorem FetchManifest_partial_read (cu : url.URL) (dl : DownloadResponse)
    (rerr : goError) :
  NewContainerClientWithNoCredential az (URL_String cu) = None ->
  Download az (NewBlobClient az (URL_String cu) "manifest.json") None
  = inr dl ->
  BodyErr dl = Some rerr ->
  outcome (FetchManifest URL_String az (Some cu))
  = Done (Some (Body dl), Some rerr).
Proof.
  intros Hclient Hdl Hread. unfold FetchManifest. run_M.
  rewrite Hclient. simpl. rewrite Hdl. simpl. unfold ReadAll.
  now rewrite Hread.
Qed.

End ManifestProperties.

(** * Query parameters *)

Section GraphQLProperties.
Variable Variables : Type.
Variable noVariables : Variables.
Variable json_Unmarshal : string -> goError + Variables.
Variable QueryError : string -> goError.

Local Notation "'FromGet'" :=
  (GraphQLQueryFromGet Variables noVariables json_Unmarshal QueryError).

(** [GraphQLQueryFromGet] either rejects the request, always with the same
    [QueryError], or returns a query and a nil error; the query then carries
    the one value of [query], the one value of [operationName] or the empty
    string when there is none, and the decoded value of [variables] or the
    empty map when there is none. *)
Theorem GraphQLQueryFromGet_result (query : gmap string (list string)) :
  FromGet query = (None, Some (QueryError "Bad Request"))
  \/ exists g,
       FromGet query = (Some g, None)
       /\ values query "query" = [Query Variables g]
       /\ (values query "operationName" = [OperationName Variables g]
           \/ (values query "operationName" = []
               /\ OperationName Variables g = ""))
       /\ ((values query "variables" = []
            /\ QueryVariables Variables g = noVariables)
           \/ exists text,
                values query "variables" = [text]
                /\ json_Unmarshal text = inr (QueryVariables Variables g)).
Proof.
  unfold GraphQLQueryFromGet.
  destruct (values query "query") as [|q [|q' qs]]; simpl; auto.
  destruct (values query "operationName") as [|o [|o' os]]; simpl; auto;
    destruct (values query "variables") as [|v [|v' vs]]; simpl; auto;
    try (right; eexists; repeat split; eauto; fail);
    (destruct (json_Unmarshal v) as [err|vars] eqn:Hjson; auto;
     right; eexists; repeat split; simpl; eauto).
Qed.

(** A request is accepted exactly when [query] has one value,
    [operationName] at most one, and [variables] none or one that decodes. *)
Theorem GraphQLQueryFromGet_accepts (query : gmap string (list string)) :
  (exists g, FromGet query = (Some g, None))
  <-> (length (values query "query") = 1
       /\ length (values query "operationName") <= 1
       /\ (values query "variables" = []
           \/ exists text vars,
                values query "variables" = [text]
                /\ json_Unmarshal text = inr vars))%nat.
Proof.
  unfold GraphQLQueryFromGet. split.
  - intros [g Hg]. revert Hg.
    destruct (values query "query") as [|q [|q' qs]]; simpl;
      try discriminate.
    destruct (values query "operationName") as [|o [|o' os]]; simpl;
      try discriminate;
      destruct (values query "variables") as [|v [|v' vs]]; simpl;
      try discriminate;
      try (intros _; repeat split; auto; fail);
      (destruct (json_Unmarshal v) as [err|vars] eqn:Hjson;
       [discriminate|]; intros _; repeat split; eauto).
  - intros (Hq & Ho & Hv).
    destruct (values query "query") as [|q [|q' qs]]; simpl in *;
      try discriminate.
    destruct (values query "operationName") as [|o [|o' os]]; simpl in *;
      try lia;
      (destruct Hv as [-> | (text & vars & -> & Hjson)]; simpl;
       [eauto | rewrite Hjson; eauto]).
Qed.

(** Parameters other than [query], [operationName] and [variables] play no
    part: adding one to a request, or changing its values, changes
    nothing of the outcome. *)
Theorem GraphQLQueryFromGet_ignores_other_parameters
    (query : gmap string (list string)) (key : string) (vals : list string) :
  key <> "query" -> key <> "operationName" -> key <> "variables" ->
  GraphQLQueryFromGet Variables noVariables json_Unmarshal QueryError
    (<[key := vals]> query)
  = GraphQLQueryFromGet Variables noVariables json_Unmarshal QueryError query.
Proof.
  intros Hq Ho Hv. unfold GraphQLQueryFromGet, values.
  now rewrite !lookup_insert_ne by done.
Qed.

End GraphQLProperties.

(** * The signing keys *)

Section KeySetProperties.
Variable URL_String : url.URL -> string.
Variable Parse : string -> goError + url.URL.
Variable http_Get : string -> goError + auth.Response.
Variable decodeConfig : string -> goError + auth.OpenIDConfig.
Variable decodeJWKS : string -> goError + auth.JWKS.
Variable DecodeString : string -> goError + list byte.
Variable Int64 : Z -> Z.

Local Notation "'rangeKeys'" := (auth.rangeKeys DecodeString Int64).
Local Notation "'publicKey'" := (auth.publicKey DecodeString Int64).
Local Notation "'decodes'" := (auth.decodes DecodeString).
Local Notation "'createWebKeySet'" :=
  (auth.createWebKeySet URL_String http_Get decodeJWKS DecodeString Int64).
Local Notation "'GetOIDCKeySet'" :=
  (auth.GetOIDCKeySet URL_String Parse http_Get decodeConfig decodeJWKS
                      DecodeString Int64).

(** The loop ends with a map and a nil error, or with a nil map and an
    error. *)
Lemma rangeKeys_map_or_error (keys : list auth.JWK)
    (m : gmap string rsa.PublicKey) :
  (exists m', rangeKeys keys m = (Some m', None))
  \/ (exists err, rangeKeys keys m = (None, Some err)).
Proof.
  revert m. induction keys as [|jwk rest IH]; intros m; simpl; eauto.
  destruct (String.eqb (auth.Kty jwk) "RSA"); [|apply IH].
  destruct (auth.fromB64 DecodeString (auth.E jwk)) as [e [err|]]; eauto.
  destruct (auth.fromB64 DecodeString (auth.N jwk)) as [n [err|]]; eauto.
Qed.

(** What the loop leaves under a key identifier: the key of the last RSA
    entry with that identifier, else what the map held before *)
Lemma rangeKeys_lookup (keys : list auth.JWK)
    (m m' : gmap string rsa.PublicKey) (kid : string) :
  rangeKeys keys m = (Some m', None) ->
  m' !! kid = match auth.lastRSA kid keys with
              | Some jwk => Some (publicKey jwk)
              | None => m !! kid
              end.
Proof.
  revert m. induction keys as [|jwk rest IH]; intros m; simpl.
  - now intros [= ->].
  - destruct (String.eqb_spec (auth.Kty jwk) "RSA") as [Hrsa|Hother]; simpl.
    + destruct (auth.fromB64 DecodeString (auth.E jwk)) as [e [err|]] eqn:HE;
        [discriminate|].
      destruct (auth.fromB64 DecodeString (auth.N jwk)) as [n [err|]] eqn:HN;
        [discriminate|].
      intros Hrest. rewrite (IH _ Hrest).
      destruct (auth.lastRSA kid rest); [reflexivity|].
      destruct (String.eqb_spec (auth.Kid jwk) kid) as [Heq|Hne]; simpl.
      * rewrite Heq, lookup_insert_eq. unfold auth.publicKey.
        now rewrite HE, HN.
      * rewrite lookup_insert_ne by exact Hne. reflexivity.
    + intros Hrest. rewrite (IH _ Hrest).
      now destruct (auth.lastRSA kid rest).
Qed.

(** The loop succeeds exactly when every RSA entry decodes *)
Lemma rangeKeys_succeeds (keys : list auth.JWK)
    (m : gmap string rsa.PublicKey) :
  (exists m', rangeKeys keys m = (Some m', None))
  <-> (forall jwk, In jwk keys -> auth.Kty jwk = "RSA" -> decodes jwk).
Proof.
  revert m. induction keys as [|jwk rest IH]; intros m; simpl.
  - split; [intros _ jwk []|eauto].
  - unfold auth.decodes.
    destruct (String.eqb_spec (auth.Kty jwk) "RSA") as [Hrsa|Hother].
    + destruct (auth.fromB64 DecodeString (auth.E jwk)) as [e [err|]] eqn:HE.
      * split; [intros [m' [=]]|].
        intros Hall. destruct (Hall jwk (or_introl eq_refl) Hrsa) as [HE' _].
        rewrite HE in HE'. discriminate.
      * destruct (auth.fromB64 DecodeString (auth.N jwk)) as [n [err|]] eqn:HN.
        -- split; [intros [m' [=]]|].
           intros Hall. destruct (Hall jwk (or_introl eq_refl) Hrsa) as [_ HN'].
           rewrite HN in HN'. discriminate.
        -- rewrite IH. split.
           ++ intros Hall jwk' [<-|Hin] Hrsa'; [|now apply Hall].
              now rewrite HE, HN.
           ++ intros Hall jwk' Hin. apply Hall. now right.
    + rewrite IH. split.
      * intros Hall jwk' [<-|Hin] Hrsa'; [contradiction|now apply Hall].
      * intros Hall jwk' Hin. apply Hall. now right.
Qed.

(** When the key set could be fetched, a map of keys comes back exactly when
    the set is not empty and every RSA entry of it decodes; entries of
    another type never make the call fail. *)
Theorem createWebKeySet_succeeds (u : url.URL) (jwks : auth.JWKS) :
  snd (auth.getJSON URL_String http_Get decodeJWKS u) = inr jwks ->
  (exists m, snd (createWebKeySet u) = (Some m, None))
  <-> (auth.Keys jwks <> []
       /\ forall jwk, In jwk (auth.Keys jwks) ->
                      auth.Kty jwk = "RSA" -> decodes jwk).
Proof.
  intros Hfetch. unfold auth.createWebKeySet.
  destruct (auth.getJSON URL_String http_Get decodeJWKS u) as [requests r].
  simpl in *. subst r.
  destruct (auth.Keys jwks) as [|jwk rest] eqn:Hkeys; simpl Nat.eqb; cbv iota.
  - split; [intros [m [=]]|intros [Hne _]; now destruct Hne].
  - rewrite rangeKeys_succeeds. split; [intros Hall; split; [discriminate|exact Hall]|now intros [_ Hall]].
Qed.

(** The map of keys holds, under each key identifier, the key of the last
    RSA entry of the set with that identifier, and nothing under the
    identifiers of other entries: a later entry replaces an earlier one, and
    entries that are not RSA are left out. *)
Theorem createWebKeySet_lookup (u : url.URL) (jwks : auth.JWKS)
    (m : gmap string rsa.PublicKey) (kid : string) :
  snd (auth.getJSON URL_String http_Get decodeJWKS u) = inr jwks ->
  snd (createWebKeySet u) = (Some m, None) ->
  m !! kid = publicKey <$> auth.lastRSA kid (auth.Keys jwks).
Proof.
  intros Hfetch. unfold auth.createWebKeySet.
  destruct (auth.getJSON URL_String http_Get decodeJWKS u) as [requests r].
  simpl in *. subst r.
  destruct (Nat.eqb (length (auth.Keys jwks)) 0); [discriminate|].
  intros Hloop. rewrite (rangeKeys_lookup _ _ _ kid Hloop).
  rewrite lookup_empty. now destruct (auth.lastRSA kid (auth.Keys jwks)).
Qed.

(** [GetOIDCKeySet] returns a map of keys with a nil error, or a nil map
    with an error; never both, never neither. *)
Theorem GetOIDCKeySet_map_or_error (authserver : option url.URL) :
  (exists m, snd (GetOIDCKeySet authserver) = (Some m, None))
  \/ (exists err, snd (GetOIDCKeySet authserver) = (None, Some err)).
Proof.
  unfold auth.GetOIDCKeySet, auth.createWebKeySet, auth.getJSON.
  destruct authserver as [a|]; simpl; eauto.
  destruct (Parse _) as [err|cfg]; simpl; eauto.
  destruct (http_Get (URL_String cfg)) as [err|r]; simpl; eauto.
  destruct (negb (auth.StatusCode r =? 200)); simpl; eauto.
  destruct (decodeConfig (auth.Body r)) as [err|conf]; simpl; eauto.
  destruct (Parse (auth.JwksURI conf)) as [err|keysURL]; simpl; eauto.
  destruct (http_Get (URL_String keysURL)) as [err|r']; simpl; eauto.
  destruct (negb (auth.StatusCode r' =? 200)); simpl; eauto.
  destruct (decodeJWKS (auth.Body r')) as [err|jwks]; simpl; eauto.
  destruct (Nat.eqb (length (auth.Keys jwks)) 0); simpl; eauto.
  apply rangeKeys_map_or_error.
Qed.

(** The requests of [GetOIDCKeySet], exactly: none when the server is nil
    or its address does not parse; else the configuration, always; and after
    it the key set, at the address the configuration announces, when and
    only when the configuration was fetched and that address parses. *)
Theorem GetOIDCKeySet_requests (authserver : option url.URL) :
  fst (GetOIDCKeySet authserver)
  = match authserver with
    | None => []
    | Some a =>
        match Parse (URL_String a +:+ "/.well-known/openid-configuration") with
        | inl _ => []
        | inr cfg =>
            URL_String cfg ::
            match snd (auth.getJSON URL_String http_Get decodeConfig cfg) with
            | inl _ => []
            | inr conf =>
                match Parse (auth.JwksURI conf) with
                | inl _ => []
                | inr keysURL => [URL_String keysURL]
                end
            end
        end
    end.
Proof.
  unfold auth.GetOIDCKeySet, auth.createWebKeySet, auth.getJSON.
  destruct authserver as [a|]; simpl; auto.
  destruct (Parse _) as [err|cfg]; simpl; auto.
  destruct (http_Get (URL_String cfg)) as [err|r]; simpl; auto.
  destruct (negb (auth.StatusCode r =? 200)); simpl; auto.
  destruct (decodeConfig (auth.Body r)) as [err|conf]; simpl; auto.
  destruct (Parse (auth.JwksURI conf)) as [err|keysURL]; simpl; auto.
Qed.

(** The keys that [GetOIDCKeySet] returns are those of the key set found at
    the address that the configuration of the server announces: under each
    identifier, the key of the last RSA entry of that set. *)
Theorem GetOIDCKeySet_keys (a : url.URL) (m : gmap string rsa.PublicKey) :
  snd (GetOIDCKeySet (Some a)) = (Some m, None) ->
  exists cfg conf keysURL jwks,
    Parse (URL_String a +:+ "/.well-known/openid-configuration") = inr cfg
    /\ snd (auth.getJSON URL_String http_Get decodeConfig cfg) = inr conf
    /\ Parse (auth.JwksURI conf) = inr keysURL
    /\ snd (auth.getJSON URL_String http_Get decodeJWKS keysURL) = inr jwks
    /\ forall kid,
         m !! kid = publicKey <$> auth.lastRSA kid (auth.Keys jwks).
Proof.
  unfold auth.GetOIDCKeySet, auth.createWebKeySet, auth.getJSON. simpl.
  destruct (Parse _) as [err|cfg] eqn:Hcfg; simpl; [discriminate|].
  destruct (http_Get (URL_String cfg)) as [err|r] eqn:Hr; simpl;
    [discriminate|].
  destruct (negb (auth.StatusCode r =? 200)) eqn:Hok; simpl; [discriminate|].
  destruct (decodeConfig (auth.Body r)) as [err|conf] eqn:Hconf; simpl;
    [discriminate|].
  destruct (Parse (auth.JwksURI conf)) as [err|keysURL] eqn:Hkeys; simpl;
    [discriminate|].
  destruct (http_Get (URL_String keysURL)) as [err|r'] eqn:Hr'; simpl;
    [discriminate|].
  destruct (negb (auth.StatusCode r' =? 200)) eqn:Hok'; simpl;
    [discriminate|].
  destruct (decodeJWKS (auth.Body r')) as [err|jwks] eqn:Hjwks; simpl;
    [discriminate|].
  destruct (Nat.eqb (length (auth.Keys jwks)) 0); [discriminate|].
  intros Hloop. exists cfg, conf, keysURL, jwks.
  rewrite Hr, Hok, Hkeys, Hr', Hok'. repeat split; auto.
  intros kid. rewrite (rangeKeys_lookup _ _ _ kid Hloop), lookup_empty.
  now destruct (auth.lastRSA kid (auth.Keys jwks)).
Qed.

End KeySetProperties.

(** * Scenarios for the further properties *)

Lemma Get_error_is_domain_error_witness :
  (exists d, DomainError (internal.NotFound "Not found: h//p") = DomainError d)
  /\ (@None (list byte) = None \/ @None (list byte) = Some []).
Proof.
  apply (@Get_error_is_domain_error url_String _ keepAllCache
           (statusStore http.StatusNotFound) ∅ (Some locator1) None
           (DomainError (internal.NotFound "Not found: h//p"))).
  vm_compute. reflexivity.
Defined.

Lemma Get_returns_witness :
  exists bytes err,
    outcome (keepAll_Get_blob (freshStore (Some "v2") payloadB)
                              (cacheWith entryC) (Some locator1))
    = Done (bytes, err).
Proof.
  apply (@Get_returns url_String _ keepAllCache
           (freshStore (Some "v2") payloadB) (cacheWith entryC) locator1
           entryC true).
  - vm_compute. reflexivity.
  - intros _. discriminate.
  - intros dl [= <-]. discriminate.
Defined.

Lemma Get_footprint_witness :
  let tr := trace (keepAll_Get_blob (etagStore "v1" payloadB)
                                    (cacheWith entryC) (Some locator1)) in
  lookups tr = ["h//p"]
  /\ (downloads tr = [] \/ downloads tr = [("http://h/p?a=1", Some "v1")])
  /\ (length (started tr) <= 1)%nat.
Proof.
  apply (@Get_footprint url_String _ keepAllCache (etagStore "v1" payloadB)
           (cacheWith entryC) locator1 entryC true).
  vm_compute. reflexivity.
Defined.

Lemma Get_caches_what_it_returns_witness :
  "h//p" = newCacheKey locator1
  /\ outcome (keepAll_Get_blob (freshStore (Some "v2") payloadB) ∅
                               (Some locator1))
     = Done (chunk (mkCacheEntry (Some payloadB) (Some "v2")), None)
  /\ (exists body, chunk (mkCacheEntry (Some payloadB) (Some "v2")) = Some body)
  /\ (exists cached,
        @get _ keepAllCache ∅ (newCacheKey locator1) = Done (cached, false)).
Proof.
  apply (@Get_caches_what_it_returns url_String _ keepAllCache
           (freshStore (Some "v2") payloadB) ∅ locator1 "h//p"
           (mkCacheEntry (Some payloadB) (Some "v2"))).
  vm_compute. left. reflexivity.
Defined.

Lemma Get_client_failure_witness :
  outcome (keepAll_Get_blob brokenStore (cacheWith entryC) (Some locator1))
  = Done (None, Some (DomainError (internal.InternalError "invalid URL")))
  /\ downloads (trace (keepAll_Get_blob brokenStore (cacheWith entryC)
                                        (Some locator1))) = []
  /\ started (trace (keepAll_Get_blob brokenStore (cacheWith entryC)
                                      (Some locator1))) = [].
Proof.
  apply (@Get_client_failure url_String _ keepAllCache brokenStore
           (cacheWith entryC) locator1 entryC true
           (OpaqueError "*errors.errorString" "invalid URL")).
  - vm_compute. reflexivity.
  - reflexivity.
Defined.

Lemma Get_partial_read_witness :
  started (trace (keepAll_Get_blob (truncatedStore payloadB) ∅
                                   (Some locator1))) = [].
Proof.
  apply (@Get_partial_read url_String _ keepAllCache (truncatedStore payloadB)
           ∅ locator1 zeroEntry false
           (mkDownloadResponse (Some "v1") payloadB
              (Some (OpaqueError "*errors.errorString" "unexpected EOF")))
           (OpaqueError "*errors.errorString" "unexpected EOF")).
  - vm_compute. reflexivity.
  - reflexivity.
  - reflexivity.
  - reflexivity.
Defined.

Lemma Get_revalidates_after_cold_fetch_witness :
  let az := etagStore "v1" payloadB in
  let first := keepAll_Get_blob az ∅ (Some locator1) in
  let second :=
    keepAll_Get_blob az (@after_tasks _ keepAllCache ∅ (trace first))
                     (Some locator2) in
  outcome first = Done (Some payloadB, None)
  /\ outcome second = Done (Some payloadB, None)
  /\ downloads (trace second) = [("http://h/p?a=2", Some "v1")]
  /\ started (trace second) = [].
Proof.
  apply (@Get_revalidates_after_cold_fetch url_String _ keepAllCache
           (etagStore "v1" payloadB) ∅ locator1 locator2 zeroEntry
           (mkDownloadResponse (Some "v1") payloadB None)
           (AzInternalError
              (AzStorageErrorPtr
                 (azblob.mkStorageError http.StatusNotModified
                                        "The condition was not met")))).
  - reflexivity.
  - reflexivity.
  - vm_compute. reflexivity.
  - reflexivity.
  - reflexivity.
  - reflexivity.
  - vm_compute. reflexivity.
  - reflexivity.
  - reflexivity.
  - eexists. split; [right; repeat constructor | reflexivity].
Defined.

Lemma Get_refuses_changed_blob_witness :
  let az := freshStore (Some "v2") payloadB in
  let first := keepAll_Get_blob az ∅ (Some locator1) in
  let second :=
    keepAll_Get_blob az (@after_tasks _ keepAllCache ∅ (trace first))
                     (Some locator1) in
  outcome second = Done (None, Some (DomainError internal.NewInternalError))
  /\ started (trace second) = [].
Proof.
  apply (@Get_refuses_changed_blob url_String _ keepAllCache
           (freshStore (Some "v2") payloadB) ∅ locator1 zeroEntry
           (mkDownloadResponse (Some "v2") payloadB None)
           (mkDownloadResponse (Some "v2") payloadB None) "v2").
  - vm_compute. reflexivity.
  - reflexivity.
  - reflexivity.
  - reflexivity.
  - reflexivity.
  - vm_compute. reflexivity.
  - reflexivity.
  - reflexivity.
Defined.

Lemma Get_noCache_agrees_with_uncached_witness :
  outcome (Get url_String (freshStore (Some "v2") payloadB) (tt : noCache)
               (Some locator1))
  = Done (Some payloadB, None)
  /\ downloads (trace (Get url_String (freshStore (Some "v2") payloadB)
                           (tt : noCache) (Some locator1)))
     = downloads (trace (uncached.Get url_String
                           (freshStore (Some "v2") payloadB) (Some locator1))).
Proof.
  apply (Get_noCache_agrees_with_uncached url_String
           (freshStore (Some "v2") payloadB) tt (Some locator1)
           (Some payloadB)).
  reflexivity.
Defined.

Lemma Get_miss_not_modified_witness :
  keepAll_Get_blob (statusStore http.StatusNotModified) ∅ (Some locator1)
  = mkM [EvCacheGet "h//p"; EvDownload "http://h/p?a=1" None]
        (Done (None, None)).
Proof.
  apply (Get_miss_not_modified url_String
           (statusStore http.StatusNotModified) (gmap string any)
           keepAll_Set keepAll_Get ∅ locator1 AnyNil
           (statusError http.StatusNotModified)).
  - vm_compute. reflexivity.
  - reflexivity.
  - reflexivity.
  - eexists. split; [right; repeat constructor | reflexivity].
Defined.

Lemma Get_foreign_value_panics_witness :
  exists why,
    keepAll_Get_blob (freshStore None payloadB)
                     {[ "h//p" := AnyOther "string" ]} (Some locator1)
    = mkM [EvCacheGet "h//p"] (Panicked why).
Proof.
  apply (Get_foreign_value_panics url_String (freshStore None payloadB)
           (gmap string any) keepAll_Set keepAll_Get
           {[ "h//p" := AnyOther "string" ]} locator1 (AnyOther "string")).
  - vm_compute. reflexivity.
  - intros e. discriminate.
Defined.

Lemma FetchManifest_status_witness :
  exists e,
    azblob.StatusCode e = http.StatusNotFound
    /\ FetchManifest url_String (statusStore http.StatusNotFound)
                     (Some container1)
       = mkM [EvDownload "http://h/cube/manifest.json" None]
             (Done (None, Some (AzStorageError e))).
Proof.
  apply (FetchManifest_status url_String (statusStore http.StatusNotFound)
           container1 (statusError http.StatusNotFound) http.StatusNotFound).
  - reflexivity.
  - reflexivity.
  - eexists. split; [right; repeat constructor | reflexivity].
Defined.

Lemma FetchManifest_partial_read_witness :
  outcome (FetchManifest url_String (truncatedStore payloadB) (Some container1))
  = Done (Some payloadB,
          Some (OpaqueError "*errors.errorString" "unexpected EOF")).
Proof.
  apply (FetchManifest_partial_read url_String (truncatedStore payloadB)
           container1
           (mkDownloadResponse (Some "v1") payloadB
              (Some (OpaqueError "*errors.errorString" "unexpected EOF")))
           (OpaqueError "*errors.errorString" "unexpected EOF")).
  - reflexivity.
  - reflexivity.
  - reflexivity.
Defined.

Lemma GraphQLQueryFromGet_ignores_other_parameters_witness :
  GraphQLQueryFromGet string "" sampleUnmarshal sampleQueryError
    (<["sig" := ["token"]]> sampleQuery)
  = GraphQLQueryFromGet string "" sampleUnmarshal sampleQueryError sampleQuery.
Proof.
  apply (GraphQLQueryFromGet_ignores_other_parameters string ""
           sampleUnmarshal sampleQueryError sampleQuery "sig" ["token"]);
    discriminate.
Defined.

Lemma createWebKeySet_succeeds_witness :
  (exists m, snd (sampleKeySet idpKeys) = (Some m, None))
  <-> (auth.Keys (auth.mkJWKS sampleKeys) <> []
       /\ forall jwk, In jwk (auth.Keys (auth.mkJWKS sampleKeys)) ->
                      auth.Kty jwk = "RSA" ->
                      auth.decodes sampleDecodeString jwk).
Proof.
  apply (createWebKeySet_succeeds url_String sampleHttpGet sampleDecodeJWKS
           sampleDecodeString id idpKeys (auth.mkJWKS sampleKeys)).
  reflexivity.
Defined.

Lemma createWebKeySet_lookup_witness :
  ({[ "a" := rsa.mkPublicKey 16743 1095844162 ]} : gmap string rsa.PublicKey)
    !! "a"
  = auth.publicKey sampleDecodeString id <$> auth.lastRSA "a" sampleKeys.
Proof.
  apply (createWebKeySet_lookup url_String sampleHttpGet sampleDecodeJWKS
           sampleDecodeString id idpKeys (auth.mkJWKS sampleKeys)
           {[ "a" := rsa.mkPublicKey 16743 1095844162 ]} "a").
  - reflexivity.
  - vm_compute. reflexivity.
Defined.

Lemma GetOIDCKeySet_keys_witness :
  exists cfg conf keysURL jwks,
    sampleParse (url_String idp +:+ "/.well-known/openid-configuration")
    = inr cfg
    /\ snd (auth.getJSON url_String sampleHttpGet sampleDecodeConfig cfg)
       = inr conf
    /\ sampleParse (auth.JwksURI conf) = inr keysURL
    /\ snd (auth.getJSON url_String sampleHttpGet sampleDecodeJWKS keysURL)
       = inr jwks
    /\ forall kid,
         ({[ "a" := rsa.mkPublicKey 16743 1095844162 ]}
            : gmap string rsa.PublicKey) !! kid
         = auth.publicKey sampleDecodeString id
             <$> auth.lastRSA kid (auth.Keys jwks).
Proof.
  apply (GetOIDCKeySet_keys url_String sampleParse sampleHttpGet
           sampleDecodeConfig sampleDecodeJWKS sampleDecodeString id idp
           {[ "a" := rsa.mkPublicKey 16743 1095844162 ]}).
  vm_compute. reflexivity.
Defined.

(** * Cache keys and the entries behind them *)

Lemma append_cons (a : ascii) (s t : string) :
  String a s +:+ t = String a (s +:+ t).
Proof. reflexivity. Qed.

Lemma append_slash_inj (h1 h2 t1 t2 : string) :
  contains_any ["/"%char] h1 = false ->
  contains_any ["/"%char] h2 = false ->
  h1 +:+ String "/" t1 = h2 +:+ String "/" t2 ->
  h1 = h2 /\ t1 = t2.
Proof.
  revert h2. induction h1 as [|a h1 IH]; intros [|b h2] Hno1 Hno2 Heq.
  - injection Heq as ->. auto.
  - rewrite append_cons in Heq. injection Heq as <- _.
    simpl in Hno2. discriminate.
  - rewrite append_cons in Heq. injection Heq as -> _.
    simpl in Hno1. discriminate.
  - rewrite !append_cons in Heq. injection Heq as -> Htail.
    simpl in Hno1, Hno2.
    apply orb_false_elim in Hno1 as [_ Hno1].
    apply orb_false_elim in Hno2 as [_ Hno2].
    destruct (IH h2 Hno1 Hno2 Htail) as [-> ->]. auto.
Qed.

(** Locators whose hosts hold no slash (as the hosts of parsed locators)
    share a cache key only when they have the same host and the same path:
    two different blobs never meet in one entry of the cache. *)
Theorem newCacheKey_injective (u1 u2 : url.URL) :
  contains_any ["/"%char] (url.Host u1) = false ->
  contains_any ["/"%char] (url.Host u2) = false ->
  newCacheKey u1 = newCacheKey u2 ->
  url.Host u1 = url.Host u2 /\ url.Path u1 = url.Path u2.
Proof.
  unfold newCacheKey. intros Hno1 Hno2 Hkey.
  exact (append_slash_inj _ _ _ _ Hno1 Hno2 Hkey).
Qed.

Lemma newCacheKey_injective_witness :
  url.Host locator1 = url.Host locator2 /\ url.Path locator1 = url.Path locator2.
Proof.
  apply (newCacheKey_injective locator1 locator2); reflexivity.
Defined.

Section Isolation.
Variable URL_String : url.URL -> string.
Context {C : Type} `{blobCache C}.
Variable az : BlobStore.

(** [Get] reads the cache under the key of its locator and nowhere else: on
    two caches that answer that key alike, it does the same and returns the
    same.  What is cached for other blobs cannot change the outcome. *)
Theorem Get_reads_own_key_only (c c' : C) (u : url.URL) :
  get c (newCacheKey u) = get c' (newCacheKey u) ->
  Get URL_String az c (Some u) = Get URL_String az c' (Some u).
Proof.
  intros Hsame. unfold Get, cache_get. now rewrite Hsame.
Qed.

End Isolation.

Lemma Get_reads_own_key_only_witness :
  keepAll_Get_blob (etagStore "v1" payloadB)
                   (<["other//blob" := AnyCacheEntry entryC]> ∅)
                   (Some locator1)
  = keepAll_Get_blob (etagStore "v1" payloadB) ∅ (Some locator1).
Proof.
  apply (@Get_reads_own_key_only url_String _ keepAllCache
           (etagStore "v1" payloadB)
           (<["other//blob" := AnyCacheEntry entryC]> ∅) ∅ locator1).
  vm_compute. reflexivity.
Defined.
